(** * compare_performance.py: the comparison driver, embedded and verified

  The script builds and runs two cargo projects, scrapes timing lines from
  their standard output, prints a comparison table and saves both result
  mappings to [performance_comparison.json].

  The embedding follows the source method by method.  Python's own
  primitives are not code of the script: the [float] type with its
  operations, and [subprocess.run], the filesystem and the clock, are the
  interfaces [FloatOps] and [World], and every theorem holds for all their
  instances.  [Module Demo] gives one instance to run the driver on. *)

From Stdlib Require Import ZArith QArith Ascii String List Bool Lia.
From stdpp Require Import base option gmap strings.

Local Open Scope string_scope.
Local Open Scope list_scope.

(* stdpp freezes string append under simpl; the proofs below compute with it. *)
Local Arguments String.append !s1 s2 : simpl nomatch.

(** ** Python [str] operations used by the script

  A [str] is a sequence of Unicode code points: [pystr].  The text of a
  child process, its lines and the tokens cut from them are of this type.
  What the script itself writes (its literals, the dictionary keys, the
  paths and the cells of its table) is kept as the [string] of the source
  file, which is UTF-8; such a string stands for the text [str] decodes
  from it, and a one-character literal for its code point. *)
Module PyStr.

Definition pystr : Type := list N.

Definition ord (c : ascii) : N := N_of_ascii c.
Coercion ord : ascii >-> N.

(** The payload of a UTF-8 continuation byte. *)
Definition cont (c : ascii) : option N :=
  let n := ord c in
  if ((128 <=? n) && (n <=? 191))%N then Some (n - 128)%N else None.

(** UTF-8 decoding: sequences of one to four bytes; a byte that starts no
    sequence stands for itself. *)
Fixpoint str (s : string) : pystr :=
  match s with
  | EmptyString => []
  | String b0 r0 =>
      let n0 := ord b0 in
      let keep := n0 :: str r0 in
      match r0 with
      | String b1 r1 =>
          match cont b1 with
          | Some c1 =>
              if ((192 <=? n0) && (n0 <=? 223))%N
              then ((n0 - 192) * 64 + c1)%N :: str r1
              else
                match r1 with
                | String b2 r2 =>
                    match cont b2 with
                    | Some c2 =>
                        if ((224 <=? n0) && (n0 <=? 239))%N
                        then ((n0 - 224) * 4096 + c1 * 64 + c2)%N :: str r2
                        else
                          match r2 with
                          | String b3 r3 =>
                              match cont b3 with
                              | Some c3 =>
                                  if ((240 <=? n0) && (n0 <=? 247))%N
                                  then ((n0 - 240) * 262144 + c1 * 4096
                                        + c2 * 64 + c3)%N :: str r3
                                  else keep
                              | None => keep
                              end
                          | EmptyString => keep
                          end
                    | None => keep
                    end
                | EmptyString => keep
                end
          | None => keep
          end
      | EmptyString => keep
      end
  end.
Coercion str : string >-> pystr.
Arguments str : simpl never.

(** [c.lower()] on one code point.  A-Z and the upper-case letters of the
    Latin-1 supplement (U+00C0..U+00DE without the multiplication sign)
    move by 32; U+0130 and U+212A are the two other code points whose lower
    case has an ASCII letter in it.  Every other code point is left as it
    is: Python lowers it to text without ASCII characters, so the ASCII
    substrings of the result, which is all the script looks for, are the
    same. *)
Definition lower_char (c : N) : pystr :=
  if ((0x41 <=? c) && (c <=? 0x5a))%N then [(c + 32)%N]
  else if ((0xc0 <=? c) && (c <=? 0xde) && negb (c =? 0xd7))%N
       then [(c + 32)%N]
  else if (c =? 0x130)%N then [0x69%N; 0x307%N]
  else if (c =? 0x212a)%N then [0x6b%N]
  else [c].

(** [s.lower()] *)
Definition lower (s : pystr) : pystr := flat_map lower_char s.

(** [c.isspace()]: the whitespace of Unicode.  Tab, LF, VT, FF, CR; FS, GS,
    RS, US, space; NEL; NBSP; U+1680; U+2000..U+200A; U+2028; U+2029;
    U+202F; U+205F; U+3000. *)
Definition isspace (c : N) : bool :=
  (((0x9 <=? c) && (c <=? 0xd)) || ((0x1c <=? c) && (c <=? 0x20))
   || (c =? 0x85) || (c =? 0xa0) || (c =? 0x1680)
   || ((0x2000 <=? c) && (c <=? 0x200a)) || (c =? 0x2028) || (c =? 0x2029)
   || (c =? 0x202f) || (c =? 0x205f) || (c =? 0x3000))%N.

(** [s] begins with [p]. *)
Fixpoint has_prefix (p s : pystr) : bool :=
  match p, s with
  | [], _ => true
  | a :: p', b :: s' => (a =? b)%N && has_prefix p' s'
  | _ :: _, [] => false
  end.

(** [sub in s] *)
Fixpoint contains (sub s : pystr) : bool :=
  has_prefix sub s
  || match s with
     | [] => false
     | _ :: s' => contains sub s'
     end.

(** [s.split(sep)] for a one-character separator: never the empty list. *)
Fixpoint split (sep : N) (s : pystr) : list pystr :=
  match s with
  | [] => [[]]
  | c :: s' =>
      if (c =? sep)%N then [] :: split sep s'
      else match split sep s' with
           | h :: t => (c :: h) :: t
           | [] => [[c]]
           end
  end.
Arguments split sep%_char s.

(** [l[-1]] on the result of [split], which is never empty. *)
Definition last_item (l : list pystr) : pystr := List.last l [].

(** [s.lstrip()], [s.rstrip()], [s.strip()] *)
Fixpoint lstrip (s : pystr) : pystr :=
  match s with
  | [] => []
  | c :: s' => if isspace c then lstrip s' else s
  end.

Fixpoint rstrip (s : pystr) : pystr :=
  match s with
  | [] => []
  | c :: s' =>
      match rstrip s' with
      | [] => if isspace c then [] else [c]
      | r => c :: r
      end
  end.

Definition strip (s : pystr) : pystr := rstrip (lstrip s).

Definition starts_token (s : pystr) : bool :=
  match s with
  | [] => false
  | c :: _ => negb (isspace c)
  end.

(** [s.split()] with no argument: the maximal runs of non-whitespace. *)
Fixpoint split_ws (s : pystr) : list pystr :=
  match s with
  | [] => []
  | c :: s' =>
      if isspace c then split_ws s'
      else if starts_token s' then
             match split_ws s' with
             | h :: t => (c :: h) :: t
             | [] => [[c]]
             end
           else [c] :: split_ws s'
  end.

(** *** On the strings the script writes *)

(** [s.startswith(p)] *)
Fixpoint startswith (p s : string) : bool :=
  match p, s with
  | EmptyString, _ => true
  | String a p', String b s' => Ascii.eqb a b && startswith p' s'
  | String _ _, EmptyString => false
  end.

(** [s * n] *)
Fixpoint repeat_str (s : string) (n : nat) : string :=
  match n with
  | O => EmptyString
  | S n' => s ++ repeat_str s n'
  end.

(** [f"{s:<w}"]: pad with spaces on the right up to width [w]. *)
Definition ljust (w : nat) (s : string) : string :=
  s ++ repeat_str " " (w - String.length s).

Definition nl : string := String (ascii_of_N 10) EmptyString.

End PyStr.

Import PyStr.

(** ** Exceptions, processes, and a monad for state, log and exceptions *)

Inductive exn : Type :=
| TimeoutExpired            (* subprocess.TimeoutExpired *)
| SystemExit (code : Z).    (* sys.exit(code) *)

Inductive res (A : Type) : Type :=
| Ret (a : A)
| Raise (e : exn).
Arguments Ret {A} a.
Arguments Raise {A} e.

(** A [CompletedProcess] with captured text streams. *)
Record completed : Type := Completed {
  returncode : Z;
  stdout : pystr;
  stderr : pystr
}.

(** [subprocess.run(..., timeout=t)] either completes or runs out of time. *)
Inductive proc_outcome : Type :=
| Exited (c : completed)
| TimedOut.

(** The outcome of running a piece of the script from a state: what it did
    (in order), the state it left, and its value or the exception raised. *)
Record out (Ev St A : Type) : Type := Out {
  log : list Ev;
  final : St;
  value : res A
}.
Arguments Out {Ev St A} log final value.
Arguments log {Ev St A} o.
Arguments final {Ev St A} o.
Arguments value {Ev St A} o.

Definition M (Ev St A : Type) : Type := St -> out Ev St A.

Definition ret {Ev St A} (a : A) : M Ev St A := fun s => Out [] s (Ret a).

Definition raise {Ev St A} (e : exn) : M Ev St A := fun s => Out [] s (Raise e).

Definition bind {Ev St A B} (m : M Ev St A) (k : A -> M Ev St B) : M Ev St B :=
  fun s =>
    match m s with
    | Out l1 s1 (Ret a) =>
        match k a s1 with
        | Out l2 s2 v => Out (l1 ++ l2) s2 v
        end
    | Out l1 s1 (Raise e) => Out l1 s1 (Raise e)
    end.

Notation "x <- m ;; k" := (bind m (fun x => k))
  (at level 100, m at next level, right associativity).
Notation "m ;; k" := (bind m (fun _ => k))
  (at level 100, right associativity).

Definition emit {Ev St} (e : Ev) : M Ev St unit := fun s => Out [e] s (Ret tt).

Fixpoint for_each {Ev St A} (l : list A) (body : A -> M Ev St unit)
    : M Ev St unit :=
  match l with
  | [] => ret tt
  | x :: l' => body x;; for_each l' body
  end.

(** ** Python's primitives, as interfaces *)

(** Python floats: a type and the operations the script applies to it. *)
Class FloatOps (F : Type) : Type := {
  float_of_str : pystr -> option F;   (* float(s); None: an exception *)
  float_of_int : Z -> F;              (* float(n) *)
  fsub : F -> F -> F;                 (* a - b *)
  fdiv : F -> F -> F;                 (* a / b, b nonzero *)
  int_truediv : Z -> Z -> F;          (* m / n on ints, n nonzero *)
  fgt0 : F -> bool;                   (* a > 0 *)
  fmt_2f : F -> string;               (* f"{a:.2f}" *)
  fmt_3f : F -> string                (* f"{a:.3f}" *)
}.

(** [self.results]: a dict with exactly the keys "original" and "optimized",
    each holding a Run Result (the [timings] dict of one label). *)
Record results (F : Type) : Type := Results {
  original : gmap string F;
  optimized : gmap string F
}.
Arguments Results {F} original optimized.
Arguments original {F} r.
Arguments optimized {F} r.

(** The outside world: filesystem, processes, clock.  A call changes the
    environment and always answers; the one exception of the model is the
    time-out of [subprocess.run].  Errors of the operating system (no
    [cargo] on the path, a tree that cannot be removed, a file that cannot
    be written) are left out: what is proved is about the runs in which
    every such call answers. *)
Class World (F Env : Type) : Type := {
  path_exists : string -> Env -> bool;     (* Path(p).exists() *)
  rmtree : string -> Env -> Env;           (* shutil.rmtree(p) *)
  subprocess_run :                         (* subprocess.run(args, cwd=, timeout=) *)
    list string -> string -> option Z -> Env -> proc_outcome * Env;
  time_time : Env -> F;                    (* time.time() *)
  tree_size : string -> Env -> Z;
    (* sum(f.stat().st_size for f in Path(p).glob('**/*') if f.is_file()) *)
  getcwd : Env -> string;                  (* os.getcwd() *)
  json_dump : string -> results F -> Env -> Env
    (* with open(p, "w") as f: json.dump(r, f, indent=2) *)
}.

(** A value read by [d.get(key, 0)]: a stored float, or the int default. *)
Inductive pynum (F : Type) : Type :=
| PyInt (z : Z)
| PyFloat (f : F).
Arguments PyInt {F} z.
Arguments PyFloat {F} f.

(** What the driver does, in the order it does it. *)
Inductive event (F : Type) : Type :=
| Print (s : pystr)                            (* one print(...) call *)
| Call (method : string) (args : list string)  (* a function is entered *)
| Subprocess (args : list string) (cwd : string) (timeout : option Z)
| Rmtree (p : string)
| JsonDump (p : string) (r : results F).
Arguments Print {F} s.
Arguments Call {F} method args.
Arguments Subprocess {F} args cwd timeout.
Arguments Rmtree {F} p.
Arguments JsonDump {F} p r.

Record state (F Env : Type) : Type := State {
  env : Env;
  self_results : results F
}.
Arguments State {F Env} env self_results.
Arguments env {F Env} s.
Arguments self_results {F Env} s.

Section Driver.

Context {F Env : Type} `{!FloatOps F} `{!World F Env}.

Abbreviation Drv := (M (event F) (state F Env)).

Definition to_float (n : pynum F) : F :=
  match n with PyInt z => float_of_int z | PyFloat f => f end.

Definition gt0 (n : pynum F) : bool :=
  match n with PyInt z => (0 <? z)%Z | PyFloat f => fgt0 f end.

Definition truediv (a b : pynum F) : F :=
  match a, b with
  | PyInt x, PyInt y => int_truediv x y
  | _, _ => fdiv (to_float a) (to_float b)
  end.

(** [d.get(key, 0)] *)
Definition get0 (d : gmap string F) (key : string) : pynum F :=
  match d !! key with Some v => PyFloat v | None => PyInt 0 end.

Definition print (s : pystr) : Drv unit := emit (Print s).

Definition call (method : string) (args : list string) : Drv unit :=
  emit (Call method args).

Definition exists_ (p : string) : Drv bool :=
  fun s => Out [] s (Ret (path_exists p (env s))).

Definition shutil_rmtree (p : string) : Drv unit :=
  fun s => Out [Rmtree p] (State (rmtree p (env s)) (self_results s)) (Ret tt).

Definition run_process (args : list string) (cwd : string)
    (timeout : option Z) : Drv completed :=
  fun s =>
    let '(o, e') := subprocess_run args cwd timeout (env s) in
    Out [Subprocess args cwd timeout] (State e' (self_results s))
        match o with
        | Exited c => Ret c
        | TimedOut => Raise TimeoutExpired
        end.

Definition now : Drv F := fun s => Out [] s (Ret (time_time (env s))).

Definition dir_size (p : string) : Drv Z :=
  fun s => Out [] s (Ret (tree_size p (env s))).

Definition os_getcwd : Drv string :=
  fun s => Out [] s (Ret (getcwd (env s))).

Definition get_results : Drv (results F) :=
  fun s => Out [] s (Ret (self_results s)).

Definition set_results (r : results F) : Drv unit :=
  fun s => Out [] (State (env s) r) (Ret tt).

Definition dump (p : string) (r : results F) : Drv unit :=
  fun s => Out [JsonDump p r] (State (json_dump p r (env s)) (self_results s))
               (Ret tt).

(** *** [PerformanceComparison.__init__] *)

Definition original_dir : string := "原始版本".
Definition optimized_dir : string := "optimized_version".
Definition init_results : results F := Results ∅ ∅.
Definition init : Drv unit := set_results init_results.

(** *** [clear_caches] *)

Definition clear_caches : Drv unit :=
  call "clear_caches" [];;
  print "Clearing caches...";;
  let original_cache := ".timstof_cache" in
  e <- exists_ original_cache;;
  (if e then
     shutil_rmtree original_cache;;
     print "  - Original cache cleared"
   else ret tt);;
  let optimized_cache := ".timstof_cache_optimized" in
  e <- exists_ optimized_cache;;
  (if e then
     shutil_rmtree optimized_cache;;
     print "  - Optimized cache cleared"
   else ret tt).

(** *** [run_version] *)

(** [line.split(':')[-1].strip().split()[0]]; [None] is the IndexError of
    [[0]] on an empty list. *)
Definition time_str (line : pystr) : option pystr :=
  head (split_ws (strip (last_item (split ":" line)))).

(** One [try: ... except: pass] block of the scan: store [float(time_str)]
    under [key], or leave [timings] as it is when anything is raised. *)
Definition try_store (key : string) (line : pystr) (timings : gmap string F)
    : gmap string F :=
  match time_str line with
  | Some s =>
      match float_of_str s with
      | Some v => <[key := v]> timings
      | None => timings
      end
  | None => timings
  end.

(** The body of [for line in output_lines]. *)
Definition scan_line (timings : gmap string F) (line : pystr)
    : gmap string F :=
  if contains "cache loading time" (lower line) then
    try_store "cache_loading" line timings
  else if contains "cache saving time" (lower line) then
    try_store "cache_saving" line timings
  else if contains "raw data reading time" (lower line) then
    try_store "raw_reading" line timings
  else if contains "total data preparation time" (lower line) then
    try_store "total_preparation" line timings
  else timings.

(** [output_lines = result.stdout.split('\n')] and the loop over it,
    starting from [timings = {}]. *)
Definition scan_output (out_text : pystr) : gmap string F :=
  fold_left scan_line (split 10%N out_text) ∅.

Definition cache_dir_of (version_name : string) : string :=
  if String.eqb version_name "original" then ".timstof_cache"
  else ".timstof_cache_optimized".

Definition run_version (version_dir version_name : string)
    : Drv (option (gmap string F)) :=
  call "run_version" [version_dir; version_name];;
  print (nl +:+ "Running " +:+ version_name +:+ " version...");;
  print (repeat_str "=" 50);;
  print ("Building " +:+ version_name +:+ "...");;
  build_result <- run_process ["cargo"; "build"; "--release"] version_dir None;;
  if negb (returncode build_result =? 0)%Z then
    print ("Build failed for " +:+ version_name +:+ ":");;
    print (stderr build_result);;
    ret None
  else
    start_time <- now;;
    result <- run_process ["cargo"; "run"; "--release"] version_dir
                          (Some 600%Z);;
    end_time <- now;;
    let total_time := fsub end_time start_time in
    if negb (returncode result =? 0)%Z then
      print ("Execution failed for " +:+ version_name +:+ ":");;
      print (stderr result);;
      ret None
    else
      let timings := scan_output (stdout result) in
      let timings := <["total_execution" := total_time]> timings in
      let cache_dir := cache_dir_of version_name in
      e <- exists_ cache_dir;;
      timings <- (if e then
                    cache_size <- dir_size cache_dir;;
                    ret (<["cache_size_mb" :=
                             int_truediv cache_size (1024 * 1024)]> timings)
                  else ret timings);;
      ret (Some timings).

(** *** [compare_results] *)

Definition metrics : list (string * string) :=
  [ ("Cache Loading", "cache_loading");
    ("Cache Saving", "cache_saving");
    ("Raw Data Reading", "raw_reading");
    ("Total Preparation", "total_preparation");
    ("Total Execution", "total_execution");
    ("Cache Size (MB)", "cache_size_mb") ].

(** The four columns of a table line: widths 20, 15, 15 and 10, each
    left-justified, one space between them. *)
Definition table_line (c1 c2 c3 c4 : string) : string :=
  ljust 20 c1 +:+ " " +:+ ljust 15 c2 +:+ " " +:+ ljust 15 c3 +:+ " "
  +:+ ljust 10 c4.

(** The body of [for display_name, key in metrics]. *)
Definition compare_metric (display_name key : string) : Drv unit :=
  r <- get_results;;
  let orig_val := get0 (original r) key in
  let opt_val := get0 (optimized r) key in
  if gt0 orig_val && gt0 opt_val then
    let speedup_str :=
      if String.eqb key "cache_size_mb" then
        fmt_2f (truediv orig_val opt_val) +:+ "x smaller"
      else
        fmt_2f (truediv orig_val opt_val) +:+ "x faster" in
    print (table_line display_name (fmt_3f (to_float orig_val))
                      (fmt_3f (to_float opt_val)) speedup_str)
  else if gt0 orig_val then
    print (table_line display_name (fmt_3f (to_float orig_val)) "N/A" "N/A")
  else if gt0 opt_val then
    print (table_line display_name "N/A" (fmt_3f (to_float opt_val)) "N/A")
  else ret tt.

Definition compare_results : Drv unit :=
  call "compare_results" [];;
  print (nl +:+ repeat_str "=" 60);;
  print "PERFORMANCE COMPARISON RESULTS";;
  print (repeat_str "=" 60);;
  print (nl +:+ table_line "Metric" "Original" "Optimized" "Speedup");;
  print (repeat_str "-" 60);;
  for_each metrics (fun m => compare_metric (fst m) (snd m)).

(** *** [run_comparison] *)

(** Truth value of a dict: it is not empty. *)
Definition truthy (d : gmap string F) : bool := bool_decide (d ≠ ∅).

Definition py_bool (b : bool) : string := if b then "True" else "False".

(** Lines 157-161: banner and first optional clearing. *)
Definition prologue (clear_cache_first : bool) : Drv unit :=
  call "run_comparison" [py_bool clear_cache_first];;
  print "Starting Performance Comparison";;
  print (repeat_str "=" 60);;
  if clear_cache_first then clear_caches else ret tt.

(** Lines 164-169: the original label. *)
Definition run_original : Drv unit :=
  e <- exists_ original_dir;;
  if e then
    original_results <- run_version original_dir "original";;
    match original_results with
    | Some t =>
        if truthy t then
          r <- get_results;; set_results (Results t (optimized r))
        else ret tt
    | None => ret tt
    end
  else
    print ("Warning: Original version directory not found: "
           +:+ original_dir).

(** Lines 172-173: second optional clearing. *)
Definition clear_between (clear_cache_first : bool) : Drv unit :=
  if clear_cache_first then clear_caches else ret tt.

(** Lines 176-181: the optimized label. *)
Definition run_optimized : Drv unit :=
  e <- exists_ optimized_dir;;
  if e then
    optimized_results <- run_version optimized_dir "optimized";;
    match optimized_results with
    | Some t =>
        if truthy t then
          r <- get_results;; set_results (Results (original r) t)
        else ret tt
    | None => ret tt
    end
  else
    print ("Warning: Optimized version directory not found: "
           +:+ optimized_dir).

(** Lines 184-185: the comparison, when both mappings are non-empty. *)
Definition compare_if_both : Drv unit :=
  r <- get_results;;
  if truthy (original r) && truthy (optimized r) then compare_results
  else ret tt.

(** Lines 188-190: the record file. *)
Definition save_results : Drv unit :=
  r <- get_results;;
  dump "performance_comparison.json" r;;
  print (nl +:+ "Detailed results saved to: performance_comparison.json").

Definition run_comparison (clear_cache_first : bool) : Drv unit :=
  prologue clear_cache_first;;
  run_original;;
  clear_between clear_cache_first;;
  run_optimized;;
  compare_if_both;;
  save_results.

(** *** [main] *)

Definition main (argv : list string) : Drv unit :=
  e1 <- exists_ "原始版本";;
  e2 <- exists_ "optimized_version";;
  if negb e1 || negb e2 then
    print "Error: This script must be run from the accelerate_caching directory";;
    cwd <- os_getcwd;;
    print ("Current directory: " +:+ cwd);;
    raise (SystemExit 1)
  else
    init;;
    let clear_cache := negb (bool_decide ("--no-clear" ∈ argv)) in
    if bool_decide ("--help" ∈ argv) then
      print "Usage: python compare_performance.py [--no-clear]";;
      print "  --no-clear: Don't clear caches before running (use existing caches)";;
      raise (SystemExit 0)
    else
      run_comparison clear_cache.

End Driver.

(** ** Notions used to state the properties *)

(** Every character of [s] satisfies [P]. *)
Fixpoint all_chars (P : N -> bool) (s : pystr) : bool :=
  match s with
  | [] => true
  | c :: s' => P c && all_chars P s'
  end.

Definition not_sep (sep c : N) : bool := negb (c =? sep)%N.
Arguments not_sep sep%_char c.

Definition not_colon (c : N) : bool := not_sep ":" c.
Definition not_space (c : N) : bool := negb (isspace c).

(** The part of [s] after its last [sep], read from left to right: [cur] is
    what follows the last [sep] seen so far. *)
Fixpoint after_last_from (sep : N) (s cur : pystr) : pystr :=
  match s with
  | [] => cur
  | c :: s' =>
      if (c =? sep)%N then after_last_from sep s' s'
      else after_last_from sep s' cur
  end.
Arguments after_last_from sep%_char s cur.

(** The text after the last colon of the line; the whole line when it has
    no colon. *)
Definition after_last_colon (line : pystr) : pystr :=
  after_last_from ":" line line.

(** The characters of [s] before its first whitespace. *)
Fixpoint take_token (s : pystr) : pystr :=
  match s with
  | [] => []
  | c :: s' => if isspace c then [] else c :: take_token s'
  end.

(** The token [s] starts with, whitespace before it skipped: it ends at the
    first whitespace after it.  There is none when [s] is whitespace only. *)
Definition first_token (s : pystr) : option pystr :=
  match lstrip s with
  | [] => None
  | r => Some (take_token r)
  end.

(** The four substrings the scan looks for, in the order of the [elif]
    chain, each with the key it feeds. *)
Definition marker_table : list (string * string) :=
  [ ("cache loading time", "cache_loading");
    ("cache saving time", "cache_saving");
    ("raw data reading time", "raw_reading");
    ("total data preparation time", "total_preparation") ].

Definition markers : list string := map fst marker_table.

(** The key of the first marker that the lower-cased line contains. *)
Definition marker_key (line : pystr) : option string :=
  match List.find (fun m : string * string => contains (fst m) (lower line))
                  marker_table with
  | Some m => Some (snd m)
  | None => None
  end.

(** The text has no marker, whatever the case of its letters. *)
Definition marker_free (text : pystr) : Prop :=
  forall m : string, m ∈ markers -> contains m (lower text) = false.

Definition marker_freeb (text : pystr) : bool :=
  forallb (fun m : string => negb (contains m (lower text))) markers.

(** The five timing metrics, and the four of them that are scraped. *)
Definition scraped_keys : list string :=
  ["cache_loading"; "cache_saving"; "raw_reading"; "total_preparation"].

Definition timing_keys : list string := scraped_keys ++ ["total_execution"].

Definition opt {A} (b : bool) (x : A) : list A := if b then [x] else [].

(** [s] is made of spaces only. *)
Fixpoint blank (s : string) : bool :=
  match s with
  | EmptyString => true
  | String c s' => Ascii.eqb c " " && blank s'
  end.

(** [field] is the cell [c] as a column of width [w] shows it: the cell,
    whole, then spaces up to the width; no space when the cell is as long
    as the width or longer. *)
Definition cell_in (w : nat) (c field : string) : Prop :=
  exists pad,
    field = c +:+ pad /\ blank pad = true
    /\ String.length pad = (w - String.length c)%nat.

(** [line] is a row of the table with the four cells [c1] to [c4]: columns
    of widths 20, 15, 15 and 10, one space between two columns. *)
Definition shows_row (line c1 c2 c3 c4 : string) : Prop :=
  exists f1 f2 f3 f4,
    cell_in 20 c1 f1 /\ cell_in 15 c2 f2 /\ cell_in 15 c3 f3
    /\ cell_in 10 c4 f4
    /\ line = f1 +:+ " " +:+ f2 +:+ " " +:+ f3 +:+ " " +:+ f4.

Section Notions.

Context {F Env : Type} `{!FloatOps F} `{!World F Env}.

(** The timing entries of a Run Result: its keys among the timing metrics. *)
Definition timing_entries (t : gmap string F) : list string :=
  List.filter (fun k => bool_decide (is_Some (t !! k))) timing_keys.

(** A label reports a strictly positive value for a metric; a missing value
    counts as unavailable. *)
Definition available (d : gmap string F) (key : string) : option F :=
  match d !! key with
  | Some v => if fgt0 v then Some v else None
  | None => None
  end.

Definition framing (key : string) : string :=
  if String.eqb key "cache_size_mb" then "x smaller" else "x faster".

(** The table line of one metric as the specification words it: a ratio
    original/optimized when both sides are available, the one available
    value otherwise, nothing when neither is. *)
Definition report_row (r : results F) (display_name key : string)
    : list (event F) :=
  match available (original r) key, available (optimized r) key with
  | Some o, Some p =>
      [Print (table_line display_name (fmt_3f o) (fmt_3f p)
                         (fmt_2f (fdiv o p) +:+ framing key))]
  | Some o, None => [Print (table_line display_name (fmt_3f o) "N/A" "N/A")]
  | None, Some p => [Print (table_line display_name "N/A" (fmt_3f p) "N/A")]
  | None, None => []
  end.

(** The steps of a run: the functions entered and the record written. *)
Definition is_step (e : event F) : bool :=
  match e with
  | Call _ _ | JsonDump _ _ => true
  | _ => false
  end.

Definition steps (l : list (event F)) : list (event F) := List.filter is_step l.

Definition is_rmtree (e : event F) : bool :=
  match e with Rmtree _ => true | _ => false end.

Definition is_subprocess (e : event F) : bool :=
  match e with Subprocess _ _ _ => true | _ => false end.

(** [e'] differs from [e] by what child processes did, and nothing else. *)
Inductive by_subprocesses (e : Env) : Env -> Prop :=
| subp_refl : by_subprocesses e e
| subp_step e1 args cwd t :
    by_subprocesses e e1 ->
    by_subprocesses e (snd (subprocess_run args cwd t e1)).

(** The labeled run started from [s] succeeds: its directory is there and
    [run_version] returns a Run Result. *)
Definition succeeds (dir name : string) (s : state F Env) : bool :=
  path_exists dir (env s)
  && match value (run_version dir name s) with
     | Ret (Some _) => true
     | _ => false
     end.

(** The environment after the build step and after the run step of a
    labeled run started in [e]. *)
Definition after_build (dir : string) (e : Env) : Env :=
  snd (subprocess_run ["cargo"; "build"; "--release"] dir None e).

Definition after_run (dir : string) (e : Env) : Env :=
  snd (subprocess_run ["cargo"; "run"; "--release"] dir (Some 600%Z)
                      (after_build dir e)).

Definition build_outcome (dir : string) (e : Env) : proc_outcome :=
  fst (subprocess_run ["cargo"; "build"; "--release"] dir None e).

Definition run_outcome (dir : string) (e : Env) : proc_outcome :=
  fst (subprocess_run ["cargo"; "run"; "--release"] dir (Some 600%Z)
                      (after_build dir e)).

(** The Run Result of a successful labeled run: scraped entries, the
    measured wall-clock time, and the cache size when the directory is
    there after the run. *)
Definition run_result (dir name : string) (e : Env) (text : pystr)
    : gmap string F :=
  let e2 := after_run dir e in
  let t := <["total_execution" :=
              fsub (time_time e2) (time_time (after_build dir e))]>
           (scan_output text) in
  if path_exists (cache_dir_of name) e2 then
    <["cache_size_mb" :=
       int_truediv (tree_size (cache_dir_of name) e2) (1024 * 1024)]> t
  else t.

(** The events that precede the build step of a labeled run. *)
Definition run_version_head (dir name : string) : list (event F) :=
  [ Call "run_version" [dir; name];
    Print (nl +:+ "Running " +:+ name +:+ " version...");
    Print (repeat_str "=" 50);
    Print ("Building " +:+ name +:+ "...");
    Subprocess ["cargo"; "build"; "--release"] dir None ].

(** The lines of the table that precede the metric rows. *)
Definition table_header : list (event F) :=
  [ Call "compare_results" [];
    Print (nl +:+ repeat_str "=" 60);
    Print "PERFORMANCE COMPARISON RESULTS";
    Print (repeat_str "=" 60);
    Print (nl +:+ table_line "Metric" "Original" "Optimized" "Speedup");
    Print (repeat_str "-" 60) ].

(** The Run Result a labeled run started from [s] returns, the empty
    mapping when it returns none. *)
Definition label_result (dir name : string) (s : state F Env)
    : gmap string F :=
  match value (run_version dir name s) with
  | Ret (Some t) => t
  | _ => ∅
  end.

(** The states at which the blocks of [run_comparison] start. *)
Definition at_original (c : bool) (s : state F Env) : state F Env :=
  final (prologue c s).

Definition at_clear (c : bool) (s : state F Env) : state F Env :=
  final (run_original (at_original c s)).

Definition at_optimized (c : bool) (s : state F Env) : state F Env :=
  final (clear_between c (at_clear c s)).

Definition at_compare (c : bool) (s : state F Env) : state F Env :=
  final (run_optimized (at_optimized c s)).

End Notions.

(** ** Further notions: the filesystem, the child processes, the table *)

(** The two cache directories, the only paths the driver removes. *)
Definition cache_paths : list string :=
  [".timstof_cache"; ".timstof_cache_optimized"].

Section MoreNotions.

Context {F Env : Type} `{!FloatOps F} `{!World F Env}.

(** What is expected of [shutil.rmtree]: the tree is gone afterwards, and
    removing one path makes no other path appear. *)
Definition rmtree_removes : Prop :=
  forall (p : string) (e : Env), path_exists p (rmtree p e) = false.

Definition rmtree_creates_nothing : Prop :=
  forall (p q : string) (e : Env),
    path_exists q e = false -> path_exists q (rmtree p e) = false.

(** A removal of something that is not a cache directory. *)
Definition is_foreign_rmtree (e : event F) : bool :=
  match e with
  | Rmtree p => negb (bool_decide (p ∈ cache_paths))
  | _ => false
  end.

Definition is_print (e : event F) : bool :=
  match e with Print _ => true | _ => false end.

(** The build step of a labeled run started in [e] exits with zero. *)
Definition build_ok (dir : string) (e : Env) : bool :=
  match build_outcome dir e with
  | Exited c => (returncode c =? 0)%Z
  | TimedOut => false
  end.

(** The child processes of a labeled run started in [e]: the build, then
    the run when the build exited with zero. *)
Definition label_processes (dir : string) (e : Env) : list (event F) :=
  Subprocess ["cargo"; "build"; "--release"] dir None
  :: opt (build_ok dir e)
         (Subprocess ["cargo"; "run"; "--release"] dir (Some 600%Z)).

(** A child process of the labeled run started in [e] runs out of time:
    the build, or the run after a build that exited with zero. *)
Definition times_out (dir : string) (e : Env) : bool :=
  match build_outcome dir e with
  | TimedOut => true
  | Exited c =>
      (returncode c =? 0)%Z
      && match run_outcome dir e with
         | TimedOut => true
         | Exited _ => false
         end
  end.

(** One of the two labels holds a strictly positive value for the metric. *)
Definition some_available (r : results F) (key : string) : bool :=
  bool_decide (is_Some (available (original r) key))
  || bool_decide (is_Some (available (optimized r) key)).

(** The Run Results after a [run_comparison] started from [s]: for each
    label what its run returned, or what was there before when it returned
    nothing. *)
Definition results_after (c : bool) (s : state F Env) : results F :=
  Results
    (if succeeds original_dir "original" (at_original c s)
     then label_result original_dir "original" (at_original c s)
     else original (self_results s))
    (if succeeds optimized_dir "optimized" (at_optimized c s)
     then label_result optimized_dir "optimized" (at_optimized c s)
     else optimized (self_results s)).

End MoreNotions.

(** ** A small concrete world, to run the driver on

    Floats are exact rationals, [float] reads plain decimal literals, and
    the two cargo projects are scripted. *)
Module Demo.

Definition digit (c : N) : option Z :=
  let n := Z.of_N c in
  if ((48 <=? n) && (n <=? 57))%Z then Some (n - 48)%Z else None.

Fixpoint digits (s : pystr) (acc : Z) : option Z :=
  match s with
  | [] => Some acc
  | c :: s' =>
      match digit c with
      | Some d => digits s' (10 * acc + d)%Z
      | None => None
      end
  end.

(** Decimal literals [ddd] and [ddd.ddd]. *)
Definition parse_decimal (s : pystr) : option Q :=
  match split "." s with
  | [a] =>
      match a with
      | [] => None
      | _ => match digits a 0 with
             | Some n => Some (Qred (n # 1))
             | None => None
             end
      end
  | [a; b] =>
      match a, b with
      | [], _ | _, [] => None
      | _, _ => match digits (a ++ b) 0 with
                | Some n =>
                    Some (Qred (Qmake n (Pos.pow 10 (Pos.of_nat (length b)))))
                | None => None
                end
      end
  | _ => None
  end.

Fixpoint show_nat_fuel (fuel : nat) (n : nat) (acc : string) : string :=
  match fuel with
  | O => acc
  | S fuel' =>
      let d := ascii_of_nat (48 + n mod 10) in
      if (n / 10 =? 0)%nat then String d acc
      else show_nat_fuel fuel' (n / 10) (String d acc)
  end.

Definition show_nat (n : nat) : string := show_nat_fuel (S n) n "".

(** [q] with [k] decimals, rounded half up; [q] is not negative. *)
Definition show_fixed (k : nat) (q : Q) : string :=
  let scale := (10 ^ Z.of_nat k)%Z in
  let scaled := ((2 * Qnum q * scale + Zpos (Qden q)) / (2 * Zpos (Qden q)))%Z in
  let frac := show_nat (Z.to_nat (scaled mod scale)) in
  show_nat (Z.to_nat (scaled / scale)) +:+ "."
  +:+ repeat_str "0" (k - String.length frac) +:+ frac.

#[export] Instance float_ops : FloatOps Q := {
  float_of_str := parse_decimal;
  float_of_int := fun z => Qred (z # 1);
  fsub := fun a b => Qred (a - b);
  fdiv := fun a b => Qred (a / b);
  int_truediv := fun m n => Qred (Qmake m 1 / Qmake n 1);
  fgt0 := fun a => (0 <? Qnum a)%Z;
  fmt_2f := show_fixed 2;
  fmt_3f := show_fixed 3
}.

(** A scripted child process: what [subprocess.run] gives, how long it
    takes, and the directories it creates. *)
Record script : Type := Script {
  outcome : proc_outcome;
  seconds : Q;
  creates : list string
}.

Record world : Type := MkWorld {
  present : list string;          (* the directories that exist *)
  clock : Q;
  cache_bytes : Z;                (* bytes under a cache directory that exists *)
  cargo : list string -> string -> script;
  saved : option (string * results Q)
}.

#[export] Instance demo_world : World Q world := {
  path_exists := fun p w => bool_decide (p ∈ present w);
  rmtree := fun p w =>
    MkWorld (List.filter (fun d => negb (String.eqb d p)) (present w))
          (clock w) (cache_bytes w) (cargo w) (saved w);
  subprocess_run := fun args cwd _ w =>
    let sc := cargo w args cwd in
    (outcome sc,
     MkWorld (creates sc ++ present w) (Qred (clock w + seconds sc))
           (cache_bytes w) (cargo w) (saved w));
  time_time := clock;
  tree_size := fun _ w => cache_bytes w;
  getcwd := fun _ => "/home/user";
  json_dump := fun p r w =>
    MkWorld (present w) (clock w) (cache_bytes w) (cargo w) (Some (p, r))
}.

Definition ok (text : pystr) (secs : Q) (dirs : list string) : script :=
  Script (Exited (Completed 0 text "")) secs dirs.

Definition failed (code : Z) (err : pystr) : script :=
  Script (Exited (Completed code "" err)) 1 [].

Definition is_build (args : list string) : bool :=
  bool_decide (args = ["cargo"; "build"; "--release"]).

(** Both projects build and run; each prints its timing lines. *)
Definition cargo_ok (args : list string) (cwd : string) : script :=
  if is_build args then ok "" 30 []
  else if String.eqb cwd original_dir then
    ok ("Raw data reading time: 40.0 seconds" +:+ nl
        +:+ "Cache loading time: 12.5 seconds" +:+ nl +:+ "done") 60
       [".timstof_cache"]
  else
    ok ("Cache Loading Time: 2.5 seconds" +:+ nl) 10
       [".timstof_cache_optimized"].

(** The original project does not build. *)
Definition cargo_build_fails (args : list string) (cwd : string) : script :=
  if is_build args && String.eqb cwd original_dir then failed 101 "error[E0308]"
  else cargo_ok args cwd.

(** The original project runs past the time bound. *)
Definition cargo_times_out (args : list string) (cwd : string) : script :=
  if negb (is_build args) && String.eqb cwd original_dir then
    Script TimedOut 600 []
  else cargo_ok args cwd.

(** The original project prints nothing that carries a marker, and one
    malformed line in the other. *)
Definition cargo_quiet (args : list string) (cwd : string) : script :=
  if is_build args then ok "" 30 []
  else if String.eqb cwd original_dir then ok ("starting" +:+ nl +:+ "done") 60 []
  else ok ("Cache loading time: abc seconds" +:+ nl
           +:+ "Cache saving time: 3 seconds") 10 [].

Definition both_dirs : list string := [original_dir; optimized_dir].

Definition start (dirs : list string)
    (c : list string -> string -> script) : state Q world :=
  State (MkWorld dirs 1000 2097152 c None) (Results ∅ ∅).

(** The states the examples start from. *)
Definition s_ok : state Q world := start both_dirs cargo_ok.
Definition s_build_fails : state Q world := start both_dirs cargo_build_fails.
Definition s_times_out : state Q world := start both_dirs cargo_times_out.
Definition s_quiet : state Q world := start both_dirs cargo_quiet.
Definition s_no_dirs : state Q world := start [] cargo_ok.
Definition s_cached : state Q world :=
  start (".timstof_cache" :: ".timstof_cache_optimized" :: both_dirs) cargo_ok.

End Demo.

(** ** More scripted projects for the concrete world *)
Module Scenarios.

Import Demo.

(** The original project builds, then its run exits with status 3. *)
Definition cargo_run_fails (args : list string) (cwd : string) : script :=
  if negb (is_build args) && String.eqb cwd original_dir then
    Script (Exited (Completed 3 "" "panicked")) 5 []
  else cargo_ok args cwd.

(** The optimized project runs past the time bound. *)
Definition cargo_optimized_times_out (args : list string) (cwd : string)
    : script :=
  if negb (is_build args) && String.eqb cwd optimized_dir then
    Script TimedOut 600 []
  else cargo_ok args cwd.

(** One line carries two markers; a later line repeats the first marker. *)
Definition cargo_two_markers (args : list string) (cwd : string) : script :=
  if is_build args then ok "" 30 []
  else ok ("Cache loading time after cache saving time: 00:07.5 s" +:+ nl
           +:+ "cache loading time: 9 s") 10 [].

Definition s_run_fails : state Q world := start both_dirs cargo_run_fails.

Definition s_optimized_times_out : state Q world :=
  start both_dirs cargo_optimized_times_out.

Definition s_two_markers : state Q world := start both_dirs cargo_two_markers.

(** A second call on the same object: both entries are already filled. *)
Definition s_stale : state Q world :=
  State (env s_build_fails)
        (Results {[ "total_execution" := 7%Q ]} {[ "total_execution" := 8%Q ]}).

(** Both labels have run: the example of the specification, 12.5 against
    2.5 seconds, and a metric that the original label alone reports. *)
Definition s_measured : state Q world :=
  State (env s_ok)
        (Results {[ "cache_loading" := 25 # 2; "cache_saving" := 3%Q ]}
                 {[ "cache_loading" := 5 # 2 ]}).

End Scenarios.

(** ** Facts about the [str] operations *)

Example split_colon : split ":" "a:b::c" = map str ["a"; "b"; ""; "c"].
Proof. reflexivity. Qed.
Example split_none : split ":" "abc" = [str "abc"].
Proof. reflexivity. Qed.
Example strip_ex : strip "  12.5 seconds  " = str "12.5 seconds".
Proof. reflexivity. Qed.
Example split_ws_ex :
  split_ws "  12.5   seconds ms " = map str ["12.5"; "seconds"; "ms"].
Proof. reflexivity. Qed.
Example split_ws_wide :
  split_ws (str "12.5" ++ [0x3000%N] ++ str "seconds" ++ [0x2003%N; 0x1680%N])
  = map str ["12.5"; "seconds"].
Proof. reflexivity. Qed.
Example lower_ex : lower "Cache LOADING Time: 1" = str "cache loading time: 1".
Proof. reflexivity. Qed.
Example contains_ex : contains "ing t" "cache loading time" = true.
Proof. reflexivity. Qed.
Example ljust_ex : ljust 6 "N/A" = "N/A   ".
Proof. reflexivity. Qed.
Example path_ok : str "原始版本" = [0x539f; 0x59cb; 0x7248; 0x672c]%N.
Proof. reflexivity. Qed.

Lemma sapp_assoc (a b c : string) : (a +:+ b) +:+ c = a +:+ (b +:+ c).
Proof. induction a as [|x a IH]; simpl; [reflexivity|]. now rewrite IH. Qed.

Lemma startswith_spec (p s : string) :
  startswith p s = true <-> exists post, s = p +:+ post.
Proof.
  revert s. induction p as [|a p IH]; intros s; simpl.
  - split; [intros _; now exists s | reflexivity].
  - destruct s as [|b s].
    + split; [discriminate | intros [post H]; discriminate].
    + rewrite andb_true_iff, IH. split.
      * intros [Hab [post ->]]. apply Ascii.eqb_eq in Hab as ->. now exists post.
      * intros [post H]. injection H as -> ->. split.
        -- apply Ascii.eqb_refl.
        -- now exists post.
Qed.

Lemma length_sapp (a b : string) :
  String.length (a +:+ b) = String.length a + String.length b.
Proof. induction a as [|c a IH]; cbn; [reflexivity|]. now rewrite IH. Qed.

Lemma length_repeat_space (n : nat) : String.length (repeat_str " " n) = n.
Proof. induction n as [|n IH]; cbn; [reflexivity|]. now rewrite IH. Qed.

Lemma length_ljust (w : nat) (s : string) :
  String.length (ljust w s) = Nat.max w (String.length s).
Proof. unfold ljust. rewrite length_sapp, length_repeat_space. lia. Qed.

Lemma blank_repeat_space (n : nat) : blank (repeat_str " " n) = true.
Proof. induction n as [|n IH]; [reflexivity|exact IH]. Qed.

Lemma ljust_cell (w : nat) (c : string) : cell_in w c (ljust w c).
Proof.
  exists (repeat_str " " (w - String.length c)). split; [reflexivity|].
  split; [apply blank_repeat_space | apply length_repeat_space].
Qed.

Lemma lower_app (a b : pystr) : lower (a ++ b) = lower a ++ lower b.
Proof. apply flat_map_app. Qed.

Lemma has_prefix_spec (p s : pystr) :
  has_prefix p s = true <-> exists post, s = p ++ post.
Proof.
  revert s. induction p as [|a p IH]; intros s; cbn [has_prefix].
  - split; [intros _; now exists s | reflexivity].
  - destruct s as [|b s].
    + split; [discriminate | intros [post H]; discriminate].
    + rewrite andb_true_iff, IH. split.
      * intros [Hab [post ->]]. apply N.eqb_eq in Hab as ->. now exists post.
      * intros [post H]. injection H as -> ->. split.
        -- apply N.eqb_refl.
        -- now exists post.
Qed.

Lemma contains_spec (m s : pystr) :
  contains m s = true <-> exists pre post, s = pre ++ m ++ post.
Proof.
  induction s as [|c s IH].
  - cbn [contains]. rewrite orb_false_r, has_prefix_spec. split.
    + intros [post H]. now exists [], post.
    + intros [pre [post H]]. destruct pre; [now exists post | discriminate].
  - cbn [contains]. rewrite orb_true_iff, has_prefix_spec, IH. split.
    + intros [[post H] | [pre [post H]]].
      * now exists [], post.
      * exists (c :: pre), post. cbn [app]. now rewrite H.
    + intros [pre [post H]]. destruct pre as [|x pre].
      * left. now exists post.
      * right. cbn [app] in H. injection H as _ H. now exists pre, post.
Qed.

Lemma contains_app_false (m pre s post : pystr) :
  contains m (pre ++ s ++ post) = false -> contains m s = false.
Proof.
  intros H. destruct (contains m s) eqn:E; [|reflexivity].
  apply contains_spec in E as [a [b ->]].
  assert (contains m (pre ++ (a ++ m ++ b) ++ post) = true) as H'.
  { apply contains_spec. exists (pre ++ a), (b ++ post).
    now rewrite <- !app_assoc. }
  congruence.
Qed.

(** Every piece of [s.split(sep)] is a slice of [s]; the first is a prefix. *)
Lemma split_slices (sep : N) (s : pystr) :
  exists h t, split sep s = h :: t
    /\ (exists post, s = h ++ post)
    /\ (forall l, l ∈ t -> exists pre post, s = pre ++ l ++ post).
Proof.
  induction s as [|c s (h & t & Hs & [post Hh] & Ht)].
  - exists [], []. repeat split.
    + now exists [].
    + intros l Hl. inversion Hl.
  - cbn [split]. destruct (c =? sep)%N.
    + exists [], (split sep s). repeat split.
      * now exists (c :: s).
      * intros l Hl. rewrite Hs in Hl. apply elem_of_cons in Hl as [-> | Hl].
        -- exists [c], post. cbn [app]. now rewrite <- Hh.
        -- destruct (Ht l Hl) as (pre & post' & E).
           exists (c :: pre), post'. cbn [app]. now rewrite <- E.
    + rewrite Hs. exists (c :: h), t. repeat split.
      * exists post. cbn [app]. now rewrite <- Hh.
      * intros l Hl. destruct (Ht l Hl) as (pre & post' & E).
        exists (c :: pre), post'. cbn [app]. now rewrite <- E.
Qed.

Lemma split_slice (sep : N) (s l : pystr) :
  l ∈ split sep s -> exists pre post, s = pre ++ l ++ post.
Proof.
  destruct (split_slices sep s) as (h & t & -> & [post Hh] & Ht).
  intros [-> | Hl]%elem_of_cons; [now exists [], post | now apply Ht].
Qed.


Lemma split_no_sep (sep : N) (s : pystr) :
  all_chars (not_sep sep) s = true -> split sep s = [s].
Proof.
  induction s as [|c s IH]; cbn [all_chars split]; [reflexivity|].
  intros [Hc Hs]%andb_true_iff. apply negb_true_iff in Hc.
  now rewrite Hc, (IH Hs).
Qed.


Lemma split_ws_lstrip (s : pystr) : split_ws (lstrip s) = split_ws s.
Proof.
  induction s as [|c s IH]; [reflexivity|].
  cbn [lstrip split_ws]. destruct (isspace c) eqn:E; [assumption|].
  cbn [split_ws]. now rewrite E.
Qed.

Lemma rstrip_first (s : pystr) :
  match rstrip s with
  | [] => split_ws s = [] /\ starts_token s = false
  | r => starts_token r = starts_token s
  end.
Proof.
  induction s as [|c s IH]; [now split|].
  cbn [rstrip]. destruct (rstrip s) as [|x r].
  - destruct IH as [Hs Ht]. destruct (isspace c) eqn:E.
    + cbn [split_ws starts_token]. rewrite E. now split.
    + reflexivity.
  - reflexivity.
Qed.

Lemma split_ws_rstrip (s : pystr) : split_ws (rstrip s) = split_ws s.
Proof.
  induction s as [|c s IH]; [reflexivity|].
  pose proof (rstrip_first s) as Hf.
  cbn [rstrip]. destruct (rstrip s) as [|x r].
  - destruct Hf as [Hs Ht]. cbn [split_ws]. rewrite Ht, Hs.
    destruct (isspace c) eqn:E; [reflexivity|].
    cbn [split_ws starts_token]. now rewrite E.
  - cbn [split_ws] in *. destruct (isspace c); [assumption|].
    change (negb (isspace x)) with (starts_token (x :: r)).
    now rewrite Hf, IH.
Qed.

Lemma split_ws_strip (s : pystr) : split_ws (strip s) = split_ws s.
Proof. unfold strip. now rewrite split_ws_rstrip, split_ws_lstrip. Qed.



Lemma marker_freeb_true (text : pystr) :
  marker_freeb text = true -> marker_free text.
Proof.
  intros H m Hm. unfold marker_freeb in H.
  rewrite forallb_forall in H. apply negb_true_iff, H.
  now apply list_elem_of_In.
Qed.

(** [split] gives one piece exactly when the separator does not occur. *)
Lemma split_with_sep (sep : N) (s : pystr) :
  all_chars (not_sep sep) s = false ->
  exists h x t, split sep s = h :: x :: t.
Proof.
  induction s as [|c s IH]; cbn [all_chars split]; [discriminate|].
  change (not_sep sep c) with (negb (c =? sep)%N).
  destruct (c =? sep)%N; cbn [negb andb].
  - intros _. destruct (split_slices sep s) as (h & t & -> & _).
    now exists [], h, t.
  - intros H. destruct (IH H) as (h & x & t & ->).
    now exists (c :: h), x, t.
Qed.

Lemma last_item_split (sep : N) (s cur : pystr) :
  after_last_from sep s cur
  = if all_chars (not_sep sep) s then cur else last_item (split sep s).
Proof.
  revert cur. induction s as [|c s IH]; intros cur; [reflexivity|].
  cbn [after_last_from all_chars split].
  change (not_sep sep c) with (negb (c =? sep)%N).
  destruct (c =? sep)%N; cbn [negb andb].
  - rewrite IH.
    destruct (all_chars _ s) eqn:E.
    + now rewrite (split_no_sep _ _ E).
    + destruct (split_with_sep _ _ E) as (h & x & t & ->). reflexivity.
  - rewrite IH. destruct (all_chars _ s) eqn:E; [reflexivity|].
    destruct (split_with_sep _ _ E) as (h & x & t & ->). reflexivity.
Qed.

Lemma last_item_after_last_colon (line : pystr) :
  last_item (split ":" line) = after_last_colon line.
Proof.
  unfold after_last_colon. rewrite last_item_split.
  destruct (all_chars _ line) eqn:E; [|reflexivity].
  now rewrite (split_no_sep _ _ E).
Qed.

Lemma take_token_stop (s : pystr) :
  starts_token s = false -> take_token s = [].
Proof.
  destruct s as [|c s]; [reflexivity|]. cbn [starts_token take_token].
  now intros ->%negb_false_iff.
Qed.

Lemma split_ws_take_token (s : pystr) :
  starts_token s = true -> exists t, split_ws s = take_token s :: t.
Proof.
  induction s as [|c s IH]; [discriminate|].
  cbn [starts_token split_ws take_token].
  intros Hc%negb_true_iff. rewrite Hc.
  destruct (starts_token s) eqn:E.
  - destruct (IH eq_refl) as [t ->]. now exists t.
  - rewrite (take_token_stop _ E). now exists (split_ws s).
Qed.

Lemma head_split_ws (s : pystr) : head (split_ws s) = first_token s.
Proof.
  unfold first_token. rewrite <- (split_ws_lstrip s).
  assert (lstrip s = [] \/ starts_token (lstrip s) = true) as [->| H].
  { induction s as [|c s IH]; [now left|].
    cbn [lstrip]. destruct (isspace c) eqn:E; [exact IH|].
    right. cbn [starts_token]. now rewrite E. }
  - reflexivity.
  - destruct (split_ws_take_token _ H) as [t ->].
    destruct (lstrip s); [discriminate|reflexivity].
Qed.

(** ** Facts about the driver *)

Section DriverFacts.

Context {F Env : Type} `{!FloatOps F} `{!World F Env}.

Implicit Types (s : state F Env) (t : gmap string F) (r : results F).

Ltac mred :=
  repeat (progress (cbv beta iota zeta;
                    cbn [value log final env self_results fst snd app negb]
                      in * )).

Ltac run_version_eval :=
  unfold run_version, run_result, run_outcome, after_run, build_outcome,
    after_build, run_version_head in *;
  unfold bind, call, print, emit, run_process, now, exists_, dir_size, ret in *;
  mred.

Ltac step_process dir tmo :=
  let ob := fresh "ob" in
  let e1 := fresh "e" in
  destruct (subprocess_run _ dir tmo _) as [ob e1]; mred; subst ob; mred.

Lemma run_version_build_timeout dir name s :
  build_outcome dir (env s) = TimedOut ->
  run_version dir name s
  = Out (run_version_head dir name)
        (State (after_build dir (env s)) (self_results s))
        (Raise TimeoutExpired).
Proof.
  intros Hb. run_version_eval.
  step_process dir (@None Z). reflexivity.
Qed.

Lemma run_version_build_fails dir name s c :
  build_outcome dir (env s) = Exited c ->
  returncode c <> 0%Z ->
  run_version dir name s
  = Out (run_version_head dir name
         ++ [Print ("Build failed for " +:+ name +:+ ":"); Print (stderr c)])
        (State (after_build dir (env s)) (self_results s))
        (Ret None).
Proof.
  intros Hb Hrc. run_version_eval.
  step_process dir (@None Z).
  apply Z.eqb_neq in Hrc. rewrite Hrc. mred. reflexivity.
Qed.

Lemma run_version_run_timeout dir name s c :
  build_outcome dir (env s) = Exited c ->
  returncode c = 0%Z ->
  run_outcome dir (env s) = TimedOut ->
  run_version dir name s
  = Out (run_version_head dir name
         ++ [Subprocess ["cargo"; "run"; "--release"] dir (Some 600%Z)])
        (State (after_run dir (env s)) (self_results s))
        (Raise TimeoutExpired).
Proof.
  intros Hb Hrc Hr. run_version_eval.
  step_process dir (@None Z).
  rewrite Hrc. change (0 =? 0)%Z with true. mred.
  step_process dir (Some 600%Z). reflexivity.
Qed.

Lemma run_version_run_fails dir name s c c' :
  build_outcome dir (env s) = Exited c ->
  returncode c = 0%Z ->
  run_outcome dir (env s) = Exited c' ->
  returncode c' <> 0%Z ->
  run_version dir name s
  = Out (run_version_head dir name
         ++ [Subprocess ["cargo"; "run"; "--release"] dir (Some 600%Z);
             Print ("Execution failed for " +:+ name +:+ ":");
             Print (stderr c')])
        (State (after_run dir (env s)) (self_results s))
        (Ret None).
Proof.
  intros Hb Hrc Hr Hrc'. run_version_eval.
  step_process dir (@None Z).
  rewrite Hrc. change (0 =? 0)%Z with true. mred.
  step_process dir (Some 600%Z).
  apply Z.eqb_neq in Hrc'. rewrite Hrc'. mred. reflexivity.
Qed.

Lemma run_version_ok dir name s c c' :
  build_outcome dir (env s) = Exited c ->
  returncode c = 0%Z ->
  run_outcome dir (env s) = Exited c' ->
  returncode c' = 0%Z ->
  run_version dir name s
  = Out (run_version_head dir name
         ++ [Subprocess ["cargo"; "run"; "--release"] dir (Some 600%Z)])
        (State (after_run dir (env s)) (self_results s))
        (Ret (Some (run_result dir name (env s) (stdout c')))).
Proof.
  intros Hb Hrc Hr Hrc'. run_version_eval.
  step_process dir (@None Z).
  rewrite Hrc. change (0 =? 0)%Z with true. mred.
  step_process dir (Some 600%Z).
  rewrite Hrc'. change (0 =? 0)%Z with true. mred.
  destruct (path_exists (cache_dir_of name) _); mred; reflexivity.
Qed.


(** The five ways a labeled run can go. *)
Inductive run_version_shape (dir name : string) (s : state F Env)
    : out (event F) (state F Env) (option (gmap string F)) -> Prop :=
| rv_build_timeout :
    build_outcome dir (env s) = TimedOut ->
    run_version_shape dir name s
      (Out (run_version_head dir name)
           (State (after_build dir (env s)) (self_results s))
           (Raise TimeoutExpired))
| rv_build_fails c :
    build_outcome dir (env s) = Exited c ->
    returncode c <> 0%Z ->
    run_version_shape dir name s
      (Out (run_version_head dir name
            ++ [Print ("Build failed for " +:+ name +:+ ":"); Print (stderr c)])
           (State (after_build dir (env s)) (self_results s))
           (Ret None))
| rv_run_timeout c :
    build_outcome dir (env s) = Exited c ->
    returncode c = 0%Z ->
    run_outcome dir (env s) = TimedOut ->
    run_version_shape dir name s
      (Out (run_version_head dir name
            ++ [Subprocess ["cargo"; "run"; "--release"] dir (Some 600%Z)])
           (State (after_run dir (env s)) (self_results s))
           (Raise TimeoutExpired))
| rv_run_fails c c' :
    build_outcome dir (env s) = Exited c ->
    returncode c = 0%Z ->
    run_outcome dir (env s) = Exited c' ->
    returncode c' <> 0%Z ->
    run_version_shape dir name s
      (Out (run_version_head dir name
            ++ [Subprocess ["cargo"; "run"; "--release"] dir (Some 600%Z);
                Print ("Execution failed for " +:+ name +:+ ":");
                Print (stderr c')])
           (State (after_run dir (env s)) (self_results s))
           (Ret None))
| rv_ok c c' :
    build_outcome dir (env s) = Exited c ->
    returncode c = 0%Z ->
    run_outcome dir (env s) = Exited c' ->
    returncode c' = 0%Z ->
    run_version_shape dir name s
      (Out (run_version_head dir name
            ++ [Subprocess ["cargo"; "run"; "--release"] dir (Some 600%Z)])
           (State (after_run dir (env s)) (self_results s))
           (Ret (Some (run_result dir name (env s) (stdout c'))))).

Lemma run_version_shape_holds dir name s :
  run_version_shape dir name s (run_version dir name s).
Proof.
  destruct (build_outcome dir (env s)) as [c|] eqn:Hb.
  2: { rewrite run_version_build_timeout by assumption. now constructor. }
  destruct (Z.eq_dec (returncode c) 0%Z) as [Hrc|Hrc].
  2: { rewrite (run_version_build_fails _ _ _ c) by assumption.
       now constructor. }
  destruct (run_outcome dir (env s)) as [c'|] eqn:Hr.
  2: { rewrite (run_version_run_timeout _ _ _ c) by assumption.
       now apply (rv_run_timeout _ _ _ c). }
  destruct (Z.eq_dec (returncode c') 0%Z) as [Hrc'|Hrc'].
  - rewrite (run_version_ok _ _ _ c c') by assumption.
    now apply (rv_ok _ _ _ c c').
  - rewrite (run_version_run_fails _ _ _ c c') by assumption.
    now apply (rv_run_fails _ _ _ c c').
Qed.

Lemma run_result_total_execution dir name e text :
  run_result dir name e text !! "total_execution"
  = Some (fsub (time_time (after_run dir e)) (time_time (after_build dir e))).
Proof.
  unfold run_result. destruct (path_exists _ _).
  - rewrite lookup_insert_ne by discriminate. apply lookup_insert_eq.
  - apply lookup_insert_eq.
Qed.

Lemma run_result_nonempty dir name e text : run_result dir name e text <> ∅.
Proof.
  intros H. pose proof (run_result_total_execution dir name e text) as H'.
  rewrite H in H'. now rewrite lookup_empty in H'.
Qed.

Lemma truthy_run_result dir name e text :
  truthy (run_result dir name e text) = true.
Proof. apply bool_decide_eq_true, run_result_nonempty. Qed.

Lemma after_build_subp dir e : by_subprocesses e (after_build dir e).
Proof. apply subp_step, subp_refl. Qed.

Lemma after_run_subp dir e : by_subprocesses e (after_run dir e).
Proof. unfold after_run. apply subp_step, after_build_subp. Qed.

(** What every labeled run leaves alone, however it ends. *)
Lemma run_version_frame dir name s :
  let o := run_version dir name s in
  self_results (final o) = self_results s
  /\ steps (log o) = [Call "run_version" [dir; name]]
  /\ List.filter is_rmtree (log o) = []
  /\ by_subprocesses (env s) (env (final o)).
Proof.
  destruct (run_version_shape_holds dir name s); cbn;
    repeat split; auto using after_build_subp, after_run_subp.
Qed.


Lemma steps_app (l1 l2 : list (event F)) :
  steps (l1 ++ l2) = steps l1 ++ steps l2.
Proof. apply List.filter_app. Qed.

Lemma steps_cons (e : event F) (l : list (event F)) :
  steps (e :: l) = if is_step e then e :: steps l else steps l.
Proof. reflexivity. Qed.

Ltac steps_simpl := repeat (rewrite steps_cons; cbn [is_step]).

Ltac block_eval :=
  unfold bind, call, print, emit, exists_, shutil_rmtree, get_results,
    set_results, dump, ret, os_getcwd, raise, init in *;
  mred.

(** Name the parts of the outcome [t], keeping what [H] says about them. *)
Ltac name_out t H :=
  let Hsub := fresh "Hsub" in
  pose proof H as Hsub; cbv zeta in Hsub; revert Hsub;
  destruct t as [? ? ?]; cbn [log final value]; intros Hsub.

Lemma clear_caches_frame s :
  let o := clear_caches s in
  value o = Ret tt
  /\ self_results (final o) = self_results s
  /\ steps (log o) = [Call "clear_caches" []].
Proof.
  unfold clear_caches. block_eval.
  destruct (path_exists ".timstof_cache" (env s)); mred;
    destruct (path_exists ".timstof_cache_optimized" _); mred; auto.
Qed.

Lemma prologue_frame c s :
  let o := prologue c s in
  value o = Ret tt
  /\ self_results (final o) = self_results s
  /\ steps (log o)
     = Call "run_comparison" [py_bool c] :: opt c (Call "clear_caches" []).
Proof.
  unfold prologue. destruct c; block_eval.
  - name_out (clear_caches s) (clear_caches_frame s).
    destruct Hsub as (-> & Hr & Hs). mred.
    repeat split; [exact Hr|].
    steps_simpl. now rewrite Hs.
  - auto.
Qed.

Lemma prologue_no_clear s :
  final (prologue false s) = s
  /\ List.filter is_rmtree (log (prologue false s)) = [].
Proof. unfold prologue. block_eval. auto. Qed.

Lemma clear_between_frame c s :
  let o := clear_between c s in
  value o = Ret tt
  /\ self_results (final o) = self_results s
  /\ steps (log o) = opt c (Call "clear_caches" []).
Proof.
  unfold clear_between. destruct c; [apply clear_caches_frame|].
  block_eval. auto.
Qed.

Lemma clear_between_no_clear s :
  clear_between false s = Out [] s (Ret tt).
Proof. reflexivity. Qed.

Ltac label_block_frame d n s :=
  block_eval; unfold succeeds, label_result;
  destruct (path_exists d (env s)); mred;
  [|repeat split; auto using subp_refl];
  destruct (run_version_shape_holds d n s); mred;
  rewrite ?truthy_run_result; mred;
  repeat split; eauto using after_build_subp, after_run_subp.

(** The block of the original label (lines 164-169). *)
Lemma run_original_frame s :
  let o := run_original s in
  optimized (self_results (final o)) = optimized (self_results s)
  /\ steps (log o)
     = opt (path_exists original_dir (env s))
           (Call "run_version" [original_dir; "original"])
  /\ List.filter is_rmtree (log o) = []
  /\ by_subprocesses (env s) (env (final o))
  /\ (value o = Ret tt \/ value o = Raise TimeoutExpired)
  /\ (value o = Ret tt \/ succeeds original_dir "original" s = false)
  /\ original (self_results (final o))
     = (if succeeds original_dir "original" s
        then label_result original_dir "original" s
        else original (self_results s))
  /\ (succeeds original_dir "original" s = true ->
      label_result original_dir "original" s <> ∅).
Proof.
  unfold run_original. label_block_frame original_dir "original" s;
    try congruence; try (intros _; apply run_result_nonempty).
Qed.

(** The block of the optimized label (lines 176-181). *)
Lemma run_optimized_frame s :
  let o := run_optimized s in
  original (self_results (final o)) = original (self_results s)
  /\ steps (log o)
     = opt (path_exists optimized_dir (env s))
           (Call "run_version" [optimized_dir; "optimized"])
  /\ List.filter is_rmtree (log o) = []
  /\ by_subprocesses (env s) (env (final o))
  /\ (value o = Ret tt \/ value o = Raise TimeoutExpired)
  /\ (value o = Ret tt \/ succeeds optimized_dir "optimized" s = false)
  /\ optimized (self_results (final o))
     = (if succeeds optimized_dir "optimized" s
        then label_result optimized_dir "optimized" s
        else optimized (self_results s))
  /\ (succeeds optimized_dir "optimized" s = true ->
      label_result optimized_dir "optimized" s <> ∅).
Proof.
  unfold run_optimized. label_block_frame optimized_dir "optimized" s;
    try congruence; try (intros _; apply run_result_nonempty).
Qed.

Lemma compare_metric_row s display_name key :
  compare_metric display_name key s
  = Out (report_row (self_results s) display_name key) s (Ret tt).
Proof.
  unfold compare_metric, report_row, available, get0, framing. block_eval.
  destruct (original (self_results s) !! key) as [o|];
    destruct (optimized (self_results s) !! key) as [p|]; cbn;
    try destruct (fgt0 o); try destruct (fgt0 p); cbn;
    try destruct (String.eqb key "cache_size_mb"); reflexivity.
Qed.

Lemma for_each_rows s (l : list (string * string)) :
  for_each l (fun m => compare_metric (fst m) (snd m)) s
  = Out (flat_map (fun m => report_row (self_results s) (fst m) (snd m)) l)
        s (Ret tt).
Proof.
  induction l as [|m l IH]; [reflexivity|].
  cbn [for_each flat_map]. unfold bind.
  rewrite compare_metric_row. cbn. now rewrite IH.
Qed.

Lemma compare_results_eq s :
  compare_results s
  = Out (table_header
         ++ flat_map (fun m => report_row (self_results s) (fst m) (snd m))
                     metrics)
        s (Ret tt).
Proof.
  unfold compare_results. unfold bind at 1 2 3 4 5 6.
  unfold call, print, emit. cbn [value final log].
  now rewrite for_each_rows.
Qed.

Lemma steps_report_row r display_name key :
  steps (report_row r display_name key) = [].
Proof.
  unfold report_row.
  destruct (available (original r) key), (available (optimized r) key);
    reflexivity.
Qed.

Lemma steps_rows r (l : list (string * string)) :
  steps (flat_map (fun m => report_row r (fst m) (snd m)) l) = [].
Proof.
  induction l as [|m l IH]; [reflexivity|].
  cbn [flat_map]. now rewrite steps_app, steps_report_row, IH.
Qed.

Lemma rmtree_rows r (l : list (string * string)) :
  List.filter is_rmtree
    (flat_map (fun m => report_row r (fst m) (snd m)) l) = [].
Proof.
  induction l as [|m l IH]; [reflexivity|].
  cbn [flat_map]. rewrite List.filter_app, IH. unfold report_row.
  destruct (available (original r) _), (available (optimized r) _);
    reflexivity.
Qed.

Lemma compare_if_both_frame s :
  let o := compare_if_both s in
  let k := truthy (original (self_results s))
           && truthy (optimized (self_results s)) in
  value o = Ret tt /\ final o = s
  /\ steps (log o) = opt k (Call "compare_results" [])
  /\ List.filter is_rmtree (log o) = [].
Proof.
  unfold compare_if_both. block_eval.
  destruct (truthy (original (self_results s))
            && truthy (optimized (self_results s))); mred.
  - rewrite compare_results_eq. mred. unfold table_header.
    rewrite steps_app, steps_rows, List.filter_app, rmtree_rows. auto.
  - auto.
Qed.

Lemma save_results_eq s :
  save_results s
  = Out [ JsonDump "performance_comparison.json" (self_results s);
          Print (nl +:+ "Detailed results saved to: performance_comparison.json") ]
        (State (json_dump "performance_comparison.json" (self_results s) (env s))
               (self_results s))
        (Ret tt).
Proof. reflexivity. Qed.

(** [run_comparison], block by block: an exception of a labeled run ends
    it; nothing else does. *)
Lemma run_comparison_unfold c s :
  run_comparison c s
  = let o1 := prologue c s in
    let o2 := run_original (at_original c s) in
    match value o2 with
    | Raise e => Out (log o1 ++ log o2) (final o2) (Raise e)
    | Ret _ =>
        let o3 := clear_between c (at_clear c s) in
        let o4 := run_optimized (at_optimized c s) in
        match value o4 with
        | Raise e =>
            Out (log o1 ++ log o2 ++ log o3 ++ log o4) (final o4) (Raise e)
        | Ret _ =>
            let o5 := compare_if_both (at_compare c s) in
            let o6 := save_results (at_compare c s) in
            Out (log o1 ++ log o2 ++ log o3 ++ log o4 ++ log o5 ++ log o6)
                (final o6) (Ret tt)
        end
    end.
Proof.
  unfold run_comparison, at_compare, at_optimized, at_clear, at_original.
  unfold bind.
  name_out (prologue c s) (prologue_frame c s).
  destruct Hsub as (-> & _). mred.
  destruct (run_original _) as [l2 f2 [[]|e2]]; mred; [|reflexivity].
  name_out (clear_between c f2) (clear_between_frame c f2).
  destruct Hsub as (-> & _). mred.
  destruct (run_optimized _) as [l4 f4 [[]|e4]]; mred; [|reflexivity].
  name_out (compare_if_both f4) (compare_if_both_frame f4).
  destruct Hsub as (-> & -> & _). mred.
  rewrite save_results_eq. mred. reflexivity.
Qed.


(** *** The scan of the output text *)


(** The expression of the source reads the first token after the last
    colon. *)
Lemma time_str_first_token (line : pystr) :
  time_str line = first_token (after_last_colon line).
Proof.
  unfold time_str.
  now rewrite split_ws_strip, head_split_ws, last_item_after_last_colon.
Qed.

Lemma scan_line_marker_key t (line : pystr) :
  scan_line t line
  = match marker_key line with
    | Some k => try_store k line t
    | None => t
    end.
Proof.
  unfold scan_line, marker_key, marker_table. cbn [List.find fst snd].
  repeat (destruct (contains _ (lower line)); [reflexivity|]). reflexivity.
Qed.

Lemma scan_line_store t (line : pystr) (k : string) (tok : pystr) (v : F) :
  marker_key line = Some k ->
  time_str line = Some tok ->
  float_of_str tok = Some v ->
  scan_line t line = <[k := v]> t.
Proof.
  intros Hk Hts Hv. rewrite scan_line_marker_key, Hk. unfold try_store.
  now rewrite Hts, Hv.
Qed.

Lemma marker_key_free (line : pystr) :
  marker_free line -> marker_key line = None.
Proof.
  intros H. unfold marker_key, marker_table. cbn [List.find fst snd].
  rewrite !H; [reflexivity|..]; unfold markers; cbn; set_solver.
Qed.

Lemma marker_free_line (text line : pystr) :
  marker_free text -> line ∈ split 10%N text -> marker_free line.
Proof.
  intros H [pre [post ->]]%split_slice m Hm.
  specialize (H m Hm). rewrite !lower_app in H.
  exact (contains_app_false _ _ _ _ H).
Qed.

Lemma fold_left_fixed {A B} (f : A -> B -> A) (l : list B) (a : A) :
  (forall x, x ∈ l -> f a x = a) -> fold_left f l a = a.
Proof.
  induction l as [|x l IH]; intros H; [reflexivity|]. cbn.
  rewrite H by (apply elem_of_cons; now left).
  apply IH. intros y Hy. apply H. apply elem_of_cons. now right.
Qed.

Lemma scan_output_marker_free (text : pystr) :
  marker_free text -> scan_output text = ∅.
Proof.
  intros H. unfold scan_output. apply fold_left_fixed. intros line Hl.
  rewrite scan_line_marker_key.
  now rewrite (marker_key_free line (marker_free_line text line H Hl)).
Qed.


(** *** [run_comparison] as a whole *)

Lemma run_comparison_value c s :
  value (run_comparison c s) = Ret tt
  <-> value (run_original (at_original c s)) = Ret tt
      /\ value (run_optimized (at_optimized c s)) = Ret tt.
Proof.
  rewrite run_comparison_unfold. cbv zeta.
  destruct (value (run_original (at_original c s))) as [[]|e] eqn:E2;
    cbn [value].
  - destruct (value (run_optimized (at_optimized c s))) as [[]|e] eqn:E4;
      cbn [value].
    + tauto.
    + split; [discriminate | intros [_ H]; discriminate].
  - split; [discriminate | intros [H _]; discriminate].
Qed.

Lemma run_comparison_steps_all c s :
  let r := self_results (at_compare c s) in
  steps (log (run_comparison c s))
  = (Call "run_comparison" [py_bool c] :: opt c (Call "clear_caches" []))
    ++ opt (path_exists original_dir (env (at_original c s)))
           (Call "run_version" [original_dir; "original"])
    ++ match value (run_original (at_original c s)) with
       | Raise _ => []
       | Ret _ =>
           opt c (Call "clear_caches" [])
           ++ opt (path_exists optimized_dir (env (at_optimized c s)))
                  (Call "run_version" [optimized_dir; "optimized"])
           ++ match value (run_optimized (at_optimized c s)) with
              | Raise _ => []
              | Ret _ =>
                  opt (truthy (original r) && truthy (optimized r))
                      (Call "compare_results" [])
                  ++ [JsonDump "performance_comparison.json" r]
              end
       end.
Proof.
  cbv zeta. rewrite run_comparison_unfold. cbv zeta.
  destruct (prologue_frame c s) as (_ & _ & H1).
  destruct (run_original_frame (at_original c s)) as (_ & H2 & _).
  destruct (clear_between_frame c (at_clear c s)) as (_ & _ & H3).
  destruct (run_optimized_frame (at_optimized c s)) as (_ & H4 & _).
  destruct (compare_if_both_frame (at_compare c s)) as (_ & _ & H5 & _).
  cbv zeta in *.
  destruct (value (run_original (at_original c s))); cbn [log];
    [destruct (value (run_optimized (at_optimized c s))); cbn [log]|];
    rewrite ?steps_app, ?H1, ?H2, ?H3, ?H4, ?H5, ?save_results_eq;
    cbn [log]; rewrite ?app_nil_r; reflexivity.
Qed.

Lemma run_comparison_final c s :
  value (run_comparison c s) = Ret tt ->
  let r := self_results (at_compare c s) in
  final (run_comparison c s)
  = State (json_dump "performance_comparison.json" r (env (at_compare c s))) r
  /\ exists l,
       log (run_comparison c s)
       = l ++ [ JsonDump "performance_comparison.json" r;
                Print (nl +:+ "Detailed results saved to: performance_comparison.json") ].
Proof.
  intros [H2 H4]%run_comparison_value.
  cbv zeta. rewrite run_comparison_unfold. cbv zeta. rewrite H2, H4.
  rewrite save_results_eq. cbn [log final]. split; [reflexivity|].
  eexists. rewrite !app_assoc. reflexivity.
Qed.

(** Both Run Results when the comparison is reached. *)
Lemma results_at_compare c s :
  let r := self_results (at_compare c s) in
  original r
  = (if succeeds original_dir "original" (at_original c s)
     then label_result original_dir "original" (at_original c s)
     else original (self_results s))
  /\ optimized r
     = (if succeeds optimized_dir "optimized" (at_optimized c s)
        then label_result optimized_dir "optimized" (at_optimized c s)
        else optimized (self_results s)).
Proof.
  destruct (prologue_frame c s) as (_ & H1 & _).
  destruct (run_original_frame (at_original c s))
    as (H2 & _ & _ & _ & _ & _ & H2' & _).
  destruct (clear_between_frame c (at_clear c s)) as (_ & H3 & _).
  destruct (run_optimized_frame (at_optimized c s))
    as (H4 & _ & _ & _ & _ & _ & H4' & _).
  cbv zeta in *.
  change (self_results (at_original c s) = self_results s) in H1.
  change (optimized (self_results (at_clear c s))
          = optimized (self_results (at_original c s))) in H2.
  change (original (self_results (at_clear c s))) with
    (original (self_results (final (run_original (at_original c s)))))
    in H2'.
  change (self_results (at_optimized c s) = self_results (at_clear c s)) in H3.
  change (original (self_results (at_compare c s))
          = original (self_results (at_optimized c s))) in H4.
  change (optimized (self_results (final (run_optimized (at_optimized c s)))))
    with (optimized (self_results (at_compare c s))) in H4'.
  split.
  - rewrite H4, H3. unfold at_clear. rewrite H2'. now rewrite H1.
  - rewrite H4', H3, H2. now rewrite H1.
Qed.

Lemma truthy_empty : truthy (∅ : gmap string F) = false.
Proof. apply bool_decide_eq_false. intros H. now apply H. Qed.

Lemma guard_is_success c s :
  self_results s = init_results ->
  let r := self_results (at_compare c s) in
  truthy (original r) = succeeds original_dir "original" (at_original c s)
  /\ truthy (optimized r)
     = succeeds optimized_dir "optimized" (at_optimized c s).
Proof.
  intros Hinit.
  destruct (results_at_compare c s) as [Ho Hp]. cbv zeta in *.
  destruct (run_original_frame (at_original c s))
    as (_ & _ & _ & _ & _ & _ & _ & Hne).
  destruct (run_optimized_frame (at_optimized c s))
    as (_ & _ & _ & _ & _ & _ & _ & Hne').
  rewrite Ho, Hp, Hinit. cbn [original optimized init_results]. split.
  - destruct (succeeds original_dir _ _); [|apply truthy_empty].
    apply bool_decide_eq_true. now apply Hne.
  - destruct (succeeds optimized_dir _ _); [|apply truthy_empty].
    apply bool_decide_eq_true. now apply Hne'.
Qed.

Lemma elem_of_steps (e : event F) (l : list (event F)) :
  e ∈ l -> is_step e = true -> e ∈ steps l.
Proof.
  intros Hin Hs. apply list_elem_of_In, List.filter_In.
  split; [now apply list_elem_of_In | exact Hs].
Qed.

Lemma elem_of_steps_inv (e : event F) (l : list (event F)) :
  e ∈ steps l -> e ∈ l.
Proof. intros H%list_elem_of_In%List.filter_In. now apply list_elem_of_In. Qed.

Lemma run_comparison_no_rmtree s :
  List.filter is_rmtree (log (run_comparison false s)) = [].
Proof.
  rewrite run_comparison_unfold. cbv zeta.
  destruct (prologue_no_clear s) as [_ H1].
  destruct (run_original_frame (at_original false s)) as (_ & _ & H2 & _).
  destruct (run_optimized_frame (at_optimized false s)) as (_ & _ & H4 & _).
  destruct (compare_if_both_frame (at_compare false s)) as (_ & _ & _ & H5).
  cbv zeta in *.
  destruct (value (run_original (at_original false s))); cbn [log];
    [destruct (value (run_optimized (at_optimized false s))); cbn [log]|];
    rewrite ?List.filter_app, ?H1, ?H2, ?H4, ?H5, ?save_results_eq;
    reflexivity.
Qed.

Lemma by_subprocesses_size (p : string) (e e' : Env) :
  (forall args cwd tmo e0,
      tree_size p (snd (subprocess_run args cwd tmo e0)) = tree_size p e0) ->
  by_subprocesses e e' -> tree_size p e' = tree_size p e.
Proof.
  intros Hkeep H. induction H as [|e1 args cwd tmo _ IH]; [reflexivity|].
  now rewrite Hkeep.
Qed.

(** *** [main] *)

Lemma main_cases argv s :
  main argv s
  = if negb (path_exists "原始版本" (env s))
       || negb (path_exists "optimized_version" (env s))
    then Out [ Print "Error: This script must be run from the accelerate_caching directory";
               Print ("Current directory: " +:+ getcwd (env s)) ]
             s (Raise (SystemExit 1))
    else if bool_decide ("--help" ∈ argv)
    then Out [ Print "Usage: python compare_performance.py [--no-clear]";
               Print "  --no-clear: Don't clear caches before running (use existing caches)" ]
             (State (env s) init_results) (Raise (SystemExit 0))
    else let o := run_comparison (negb (bool_decide ("--no-clear" ∈ argv)))
                                 (State (env s) init_results) in
         Out (log o) (final o) (value o).
Proof.
  unfold main. block_eval.
  destruct (path_exists "原始版本" (env s)); cbn;
    destruct (path_exists "optimized_version" (env s)); cbn;
    try reflexivity.
  destruct (bool_decide ("--help" ∈ argv)); cbn; [reflexivity|].
  destruct (run_comparison _ _) as [l f [a|e]]; reflexivity.
Qed.

Lemma run_comparison_results c s :
  self_results (final (run_comparison c s))
  = match value (run_original (at_original c s)) with
    | Raise _ => self_results (at_clear c s)
    | Ret _ => self_results (at_compare c s)
    end.
Proof.
  rewrite run_comparison_unfold. cbv zeta.
  destruct (value (run_original (at_original c s))); cbn [final];
    [|reflexivity].
  destruct (value (run_optimized (at_optimized c s))); cbn [final];
    [|reflexivity].
  now rewrite save_results_eq.
Qed.

Lemma results_at_clear c s :
  original (self_results (at_clear c s))
  = (if succeeds original_dir "original" (at_original c s)
     then label_result original_dir "original" (at_original c s)
     else original (self_results s))
  /\ optimized (self_results (at_clear c s)) = optimized (self_results s).
Proof.
  destruct (prologue_frame c s) as (_ & H1 & _).
  destruct (run_original_frame (at_original c s))
    as (H2 & _ & _ & _ & _ & _ & H2' & _).
  cbv zeta in *.
  change (self_results (at_original c s) = self_results s) in H1.
  unfold at_clear. rewrite H2', H2. now rewrite H1.
Qed.

Ltac elem_cases H :=
  repeat match type of H with
         | _ ∈ _ ++ _ => apply elem_of_app in H as [H|H]
         | _ ∈ _ :: _ => apply elem_of_cons in H as [H|H]
         | _ ∈ opt ?b _ => destruct b eqn:?; cbn [opt] in H
         | _ ∈ [] => apply elem_of_nil in H; destruct H
         | _ ∈ match ?v with _ => _ end => destruct v eqn:?
         end.

(** The record is written once, when the run completes, and holds both
    Run Results as they are when the comparison is reached. *)
Lemma run_comparison_dump c s p r :
  JsonDump p r ∈ log (run_comparison c s) ->
  p = "performance_comparison.json"
  /\ r = self_results (at_compare c s)
  /\ value (run_comparison c s) = Ret tt.
Proof.
  intros H. apply elem_of_steps in H; [|reflexivity].
  pose proof (run_comparison_steps_all c s) as Hs. cbv zeta in Hs.
  rewrite Hs in H. clear Hs.
  destruct (value (run_original (at_original c s))) as [[]|] eqn:E2;
    [destruct (value (run_optimized (at_optimized c s))) as [[]|] eqn:E4|];
    elem_cases H; try discriminate H.
  all: injection H as -> ->; repeat split; now apply run_comparison_value.
Qed.

Lemma succeeds_build_fails dir name s c :
  build_outcome dir (env s) = Exited c ->
  returncode c <> 0%Z ->
  succeeds dir name s = false.
Proof.
  intros Hb Hrc. unfold succeeds.
  rewrite (run_version_build_fails dir name s c Hb Hrc). cbn [value].
  apply andb_false_r.
Qed.


(** ** The properties of the specification *)


(** C6. A line whose token is missing or is refused by [float] (it may
    match a timing marker, as [Cache loading time: abc seconds] does) leaves
    the timings as they were and raises nothing: the scan gives what it
    gives without that line, and a run whose build and run steps exit with
    zero returns its Run Result whatever its output is. *)
Theorem malformed_timing_line_is_skipped :
  (forall (t : gmap string F) (line : pystr),
      (forall tok, time_str line = Some tok -> float_of_str tok = None) ->
      scan_line t line = t)
  /\ (forall (t : gmap string F) (l1 l2 : list pystr) (line : pystr),
         (forall tok, time_str line = Some tok -> float_of_str tok = None) ->
         fold_left scan_line (l1 ++ line :: l2) t
         = fold_left scan_line (l1 ++ l2) t)
  /\ (forall dir name (s : state F Env) c c',
         build_outcome dir (env s) = Exited c -> returncode c = 0%Z ->
         run_outcome dir (env s) = Exited c' -> returncode c' = 0%Z ->
         value (run_version dir name s)
         = Ret (Some (run_result dir name (env s) (stdout c'))))
  /\ (forall t : gmap string F,
         float_of_str "abc" = None ->
         marker_key "Cache loading time: abc seconds" = Some "cache_loading"
         /\ scan_line t "Cache loading time: abc seconds" = t).
Proof.
  assert (forall (t : gmap string F) (line : pystr),
      (forall tok, time_str line = Some tok -> float_of_str tok = None) ->
      scan_line t line = t) as Hskip.
  { intros t line H. rewrite scan_line_marker_key.
    destruct (marker_key line) as [k|]; [|reflexivity].
    unfold try_store. destruct (time_str line) as [tok|] eqn:E; [|reflexivity].
    now rewrite (H tok eq_refl). }
  repeat split.
  - exact Hskip.
  - intros t l1 l2 line H.
    rewrite !fold_left_app. cbn [fold_left]. now rewrite Hskip.
  - intros dir name s c c' Hb Hrc Hr Hrc'.
    now rewrite (run_version_ok dir name s c c').
  - apply Hskip. intros tok Htok. vm_compute in Htok. now injection Htok as <-.
Qed.

(** C2, as the code has it. When the build and run steps of a labeled run
    exit with zero and the captured output has no timing marker (whatever
    the case of its letters), the Run Result has none of the four scraped
    entries; its one timing entry is [total_execution], the wall-clock time
    the driver measured; and it has a [cache_size_mb] entry exactly when the
    label's cache directory exists after the run. *)
Theorem marker_free_output_result dir name (s : state F Env) c c' :
  build_outcome dir (env s) = Exited c -> returncode c = 0%Z ->
  run_outcome dir (env s) = Exited c' -> returncode c' = 0%Z ->
  marker_free (stdout c') ->
  exists t : gmap string F,
    value (run_version dir name s) = Ret (Some t)
    /\ (forall k, k ∈ scraped_keys -> t !! k = None)
    /\ timing_entries t = ["total_execution"]
    /\ t !! "total_execution"
       = Some (fsub (time_time (after_run dir (env s)))
                    (time_time (after_build dir (env s))))
    /\ (is_Some (t !! "cache_size_mb")
        <-> path_exists (cache_dir_of name) (after_run dir (env s)) = true).
Proof.
  intros Hb Hrc Hr Hrc' Hfree.
  exists (run_result dir name (env s) (stdout c')).
  split; [now rewrite (run_version_ok dir name s c c')|].
  assert (forall k, k <> "total_execution" -> k <> "cache_size_mb" ->
            run_result dir name (env s) (stdout c') !! k = None) as Hother.
  { intros k H1 H2. unfold run_result.
    rewrite (scan_output_marker_free _ Hfree).
    destruct (path_exists _ _);
      rewrite ?lookup_insert_ne by congruence; apply lookup_empty. }
  split; [|split; [|split]].
  - intros k Hk. unfold scraped_keys in Hk.
    apply Hother; intros ->;
      repeat (apply elem_of_cons in Hk as [Hk|Hk]; [discriminate|]);
      now apply elem_of_nil in Hk.
  - unfold timing_entries, timing_keys, scraped_keys. cbn [app List.filter].
    rewrite !Hother by discriminate.
    rewrite run_result_total_execution. reflexivity.
  - apply run_result_total_execution.
  - unfold run_result. rewrite (scan_output_marker_free _ Hfree).
    destruct (path_exists _ _).
    + rewrite lookup_insert_eq. split; [reflexivity | eauto].
    + rewrite lookup_insert_ne by discriminate. rewrite lookup_empty.
      split; [intros [x Hx]; discriminate | discriminate].
Qed.

(** C4. For every metric of the table, [compare_results] prints a ratio
    exactly when both Run Results hold a strictly positive value for it (a
    missing value counts as unavailable).  The line of the metric then
    shows, in columns of widths 20, 15, 15 and 10, the name of the metric,
    the two values with three decimals, and the ratio original divided by
    optimized with two decimals, worded [x faster] for the five timing
    metrics and [x smaller] for the size metric.  When one side only is
    available the line shows its value, with [N/A] for the other side and
    for the ratio; when neither is, no line is printed.  [compare_results]
    prints these lines, in the order of the metrics, below the heading of
    the table, changes nothing and raises nothing. *)
Theorem compare_results_ratio_iff_both_positive (s : state F Env) :
  (forall display_name key,
      key ∈ map snd metrics ->
      exists row,
        compare_metric display_name key s = Out row s (Ret tt)
        /\ match available (original (self_results s)) key,
                 available (optimized (self_results s)) key with
           | Some o, Some p =>
               exists line : string,
                 row = [Print line]
                 /\ shows_row line display_name (fmt_3f o) (fmt_3f p)
                      (fmt_2f (fdiv o p)
                       +:+ (if bool_decide (key ∈ timing_keys)
                            then "x faster" else "x smaller"))
           | Some o, None =>
               exists line : string,
                 row = [Print line]
                 /\ shows_row line display_name (fmt_3f o) "N/A" "N/A"
           | None, Some p =>
               exists line : string,
                 row = [Print line]
                 /\ shows_row line display_name "N/A" (fmt_3f p) "N/A"
           | None, None => row = []
           end)
  /\ compare_results s
     = Out (table_header
            ++ flat_map (fun m => report_row (self_results s) (fst m) (snd m))
                        metrics)
           s (Ret tt)
  /\ (forall display_name key,
        compare_metric display_name key s
        = Out (report_row (self_results s) display_name key) s (Ret tt))
  /\ map snd metrics = timing_keys ++ ["cache_size_mb"]
  /\ Forall (fun key => framing key = "x faster") timing_keys
  /\ framing "cache_size_mb" = "x smaller"
  /\ (table_header : list (event F))
     = [ Call "compare_results" [];
         Print (nl +:+ "============================================================");
         Print "PERFORMANCE COMPARISON RESULTS";
         Print "============================================================";
         Print (nl +:+ "Metric               Original        Optimized       Speedup   ");
         Print "------------------------------------------------------------" ].
Proof.
  split.
  { intros display_name key Hkey.
    exists (report_row (self_results s) display_name key).
    split; [apply compare_metric_row|].
    assert (framing key
            = if bool_decide (key ∈ timing_keys)
              then "x faster" else "x smaller") as Hw.
    { unfold metrics in Hkey. cbn [map snd] in Hkey.
      elem_cases Hkey; subst key; reflexivity. }
    assert (forall c1 c2 c3 c4 : string,
               shows_row (table_line c1 c2 c3 c4) c1 c2 c3 c4) as Hshows.
    { intros c1 c2 c3 c4.
      exists (ljust 20 c1), (ljust 15 c2), (ljust 15 c3), (ljust 10 c4).
      repeat split; apply ljust_cell. }
    unfold report_row.
    destruct (available (original (self_results s)) key) as [o|],
             (available (optimized (self_results s)) key) as [p|].
    - eexists. split; [reflexivity|]. rewrite <- Hw. apply Hshows.
    - eexists. split; [reflexivity|]. apply Hshows.
    - eexists. split; [reflexivity|]. apply Hshows.
    - reflexivity. }
  split; [apply compare_results_eq|].
  split; [intros; apply compare_metric_row|].
  split; [reflexivity|].
  split; [|split; reflexivity].
  unfold timing_keys, scraped_keys. cbn [app].
  repeat (apply Forall_cons; split; [reflexivity|]). apply Forall_nil_2.
Qed.


(** C1, what the code does. When the build step exits with zero and the
    run step does not complete within its 600 seconds, [run_version] does
    not return: [subprocess.TimeoutExpired] is raised and nothing catches
    it.  Raised in the run of the original label it ends [run_comparison]
    there: the optimized label is not run and no record is written. *)
Theorem run_timeout_is_not_caught :
  (forall dir name (s : state F Env) c,
      build_outcome dir (env s) = Exited c ->
      returncode c = 0%Z ->
      run_outcome dir (env s) = TimedOut ->
      value (run_version dir name s) = Raise TimeoutExpired)
  /\ (forall (clear : bool) (s : state F Env) c,
         path_exists original_dir (env (at_original clear s)) = true ->
         build_outcome original_dir (env (at_original clear s)) = Exited c ->
         returncode c = 0%Z ->
         run_outcome original_dir (env (at_original clear s)) = TimedOut ->
         value (run_comparison clear s) = Raise TimeoutExpired
         /\ steps (log (run_comparison clear s))
            = Call "run_comparison" [py_bool clear]
              :: opt clear (Call "clear_caches" [])
              ++ [Call "run_version" [original_dir; "original"]]).
Proof.
  split.
  - intros dir name s c Hb Hrc Hr.
    now rewrite (run_version_run_timeout dir name s c).
  - intros clear s c Hex Hb Hrc Hr.
    assert (value (run_original (at_original clear s)) = Raise TimeoutExpired)
      as Hv.
    { unfold run_original. block_eval. rewrite Hex.
      rewrite (run_version_run_timeout _ _ _ c Hb Hrc Hr). reflexivity. }
    split.
    + rewrite run_comparison_unfold. cbv zeta. now rewrite Hv.
    + pose proof (run_comparison_steps_all clear s) as Hs. cbv zeta in Hs.
      rewrite Hs, Hv, Hex. cbn [opt]. now rewrite app_nil_r.
Qed.

(** C7. When the build step exits with a non-zero status, [run_version]
    returns [None]; the build is the only child process it starts; and the
    label's entry of [self.results], empty at the start, is empty at the end
    of [run_comparison] and in the record it writes. *)
Theorem build_failure_gives_no_result :
  (forall dir name (s : state F Env) c,
      build_outcome dir (env s) = Exited c ->
      returncode c <> 0%Z ->
      value (run_version dir name s) = Ret None
      /\ List.filter is_subprocess (log (run_version dir name s))
         = [Subprocess ["cargo"; "build"; "--release"] dir None]
      /\ self_results (final (run_version dir name s)) = self_results s)
  /\ (forall (clear : bool) (s : state F Env) c,
         self_results s = init_results ->
         build_outcome original_dir (env (at_original clear s)) = Exited c ->
         returncode c <> 0%Z ->
         original (self_results (final (run_comparison clear s))) = ∅
         /\ forall p r, JsonDump p r ∈ log (run_comparison clear s) ->
                        original r = ∅)
  /\ (forall (clear : bool) (s : state F Env) c,
         self_results s = init_results ->
         build_outcome optimized_dir (env (at_optimized clear s)) = Exited c ->
         returncode c <> 0%Z ->
         optimized (self_results (final (run_comparison clear s))) = ∅
         /\ forall p r, JsonDump p r ∈ log (run_comparison clear s) ->
                        optimized r = ∅).
Proof.
  split; [|split].
  - intros dir name s c Hb Hrc.
    now rewrite (run_version_build_fails dir name s c Hb Hrc).
  - intros clear s c Hinit Hb Hrc.
    pose proof (succeeds_build_fails _ "original" _ c Hb Hrc) as Hf.
    destruct (results_at_clear clear s) as [Hcl _].
    destruct (results_at_compare clear s) as [Hcmp _]. cbv zeta in Hcmp.
    rewrite Hf, Hinit in Hcl, Hcmp. split.
    + rewrite run_comparison_results.
      now destruct (value (run_original (at_original clear s))).
    + now intros p r (_ & -> & _)%run_comparison_dump.
  - intros clear s c Hinit Hb Hrc.
    pose proof (succeeds_build_fails _ "optimized" _ c Hb Hrc) as Hf.
    destruct (results_at_clear clear s) as [_ Hcl].
    destruct (results_at_compare clear s) as [_ Hcmp]. cbv zeta in Hcmp.
    rewrite Hf, Hinit in Hcmp. rewrite Hinit in Hcl. split.
    + rewrite run_comparison_results.
      now destruct (value (run_original (at_original clear s))).
    + now intros p r (_ & -> & _)%run_comparison_dump.
Qed.


(** C8. A [run_comparison] that completes goes through its steps in one
    fixed order: the first clearing when asked for, the run of the original
    label (when its directory is there), the second clearing when asked
    for, the run of the optimized label (when its directory is there), the
    comparison when both Run Results are non-empty, and last the record,
    written whatever happened before.  The record holds both Run Results,
    empty for a label that gave none, and its content does not depend on
    any record written earlier. *)
Theorem run_comparison_fixed_order (clear : bool) (s : state F Env) :
  value (run_comparison clear s) = Ret tt ->
  let r := self_results (at_compare clear s) in
  steps (log (run_comparison clear s))
  = [Call "run_comparison" [py_bool clear]]
    ++ opt clear (Call "clear_caches" [])
    ++ opt (path_exists original_dir (env (at_original clear s)))
           (Call "run_version" [original_dir; "original"])
    ++ opt clear (Call "clear_caches" [])
    ++ opt (path_exists optimized_dir (env (at_optimized clear s)))
           (Call "run_version" [optimized_dir; "optimized"])
    ++ opt (truthy (original r) && truthy (optimized r))
           (Call "compare_results" [])
    ++ [JsonDump "performance_comparison.json" r]
  /\ (exists l,
        log (run_comparison clear s)
        = l ++ [ JsonDump "performance_comparison.json" r;
                 Print (nl +:+ "Detailed results saved to: performance_comparison.json") ])
  /\ final (run_comparison clear s)
     = State (json_dump "performance_comparison.json" r
                        (env (at_compare clear s))) r
  /\ (self_results s = init_results ->
      r = Results
            (if succeeds original_dir "original" (at_original clear s)
             then label_result original_dir "original" (at_original clear s)
             else ∅)
            (if succeeds optimized_dir "optimized" (at_optimized clear s)
             then label_result optimized_dir "optimized"
                               (at_optimized clear s)
             else ∅)).
Proof.
  intros Hv r.
  destruct (run_comparison_final clear s Hv) as [Hfinal Hlast].
  apply run_comparison_value in Hv as [H2 H4].
  pose proof (run_comparison_steps_all clear s) as Hs. cbv zeta in Hs.
  rewrite H2, H4 in Hs.
  split; [|split; [|split]].
  - rewrite Hs. reflexivity.
  - exact Hlast.
  - exact Hfinal.
  - intros Hinit. destruct (results_at_compare clear s) as [Ho Hp].
    cbv zeta in Ho, Hp. rewrite Hinit in Ho, Hp.
    cbn [init_results original optimized] in Ho, Hp.
    subst r. destruct (self_results (at_compare clear s)) as [ro rp].
    cbn [original optimized] in Ho, Hp. now rewrite Ho, Hp.
Qed.

(** C9. With [--no-clear] among the arguments the driver never enters
    [clear_caches] and never removes a directory.  The environment in which
    the original label starts is the one [main] was started in, and the one
    in which the optimized label starts differs from it by what child
    processes did only: a cache directory whose size the child processes do
    not change has, before each labeled run, the size it had before the
    invocation. *)
Theorem no_clear_leaves_caches (argv : list string) (s : state F Env) :
  "--no-clear" ∈ argv ->
  let s0 := State (env s) init_results in
  (Call "clear_caches" [] ∉ log (main argv s))
  /\ List.filter is_rmtree (log (main argv s)) = []
  /\ (path_exists "原始版本" (env s) = true ->
      path_exists "optimized_version" (env s) = true ->
      "--help" ∉ argv ->
      main argv s = run_comparison false s0)
  /\ env (at_original false s0) = env s
  /\ by_subprocesses (env s) (env (at_optimized false s0))
  /\ (forall p,
        (forall args cwd tmo e,
            tree_size p (snd (subprocess_run args cwd tmo e)) = tree_size p e) ->
        tree_size p (env (at_original false s0)) = tree_size p (env s)
        /\ tree_size p (env (at_optimized false s0)) = tree_size p (env s)).
Proof.
  intros Hflag s0. subst s0.
  assert (negb (bool_decide ("--no-clear" ∈ argv)) = false) as Hc
    by now rewrite bool_decide_eq_true_2.
  assert (env (at_original false (State (env s) init_results)) = env s) as E1.
  { unfold at_original. now destruct (prologue_no_clear (State (env s) init_results)) as [-> _]. }
  assert (by_subprocesses (env s) (env (at_optimized false (State (env s) init_results)))) as E3.
  { unfold at_optimized. rewrite clear_between_no_clear. cbn [final].
    destruct (run_original_frame (at_original false (State (env s) init_results)))
      as (_ & _ & _ & Hsub & _). cbv zeta in Hsub.
    now rewrite E1 in Hsub. }
  split; [|split; [|split; [|split; [|split]]]].
  - rewrite main_cases, Hc.
    destruct (negb _ || negb _);
      [|destruct (bool_decide ("--help" ∈ argv))]; cbn [log].
    + intros H. elem_cases H; discriminate H.
    + intros H. elem_cases H; discriminate H.
    + cbv zeta. cbn [log]. intros H. apply elem_of_steps in H; [|reflexivity].
      pose proof (run_comparison_steps_all false (State (env s) init_results)) as Hs. cbv zeta in Hs.
      rewrite Hs in H. cbn [opt py_bool app] in H.
      elem_cases H; discriminate H.
  - rewrite main_cases, Hc.
    destruct (negb _ || negb _);
      [|destruct (bool_decide ("--help" ∈ argv))]; cbn [log];
      try reflexivity.
    cbv zeta. cbn [log]. apply run_comparison_no_rmtree.
  - intros Ha Hb Hhelp. rewrite main_cases, Hc, Ha, Hb.
    rewrite bool_decide_eq_false_2 by exact Hhelp. cbn [negb orb].
    cbv zeta. now destruct (run_comparison false _).
  - exact E1.
  - exact E3.
  - intros p Hkeep. split; [now rewrite E1|].
    now apply by_subprocesses_size.
Qed.


(** C10. A labeled run returns a Run Result exactly when its build and run
    steps both exit with zero; that Run Result holds [total_execution], the
    wall-clock time the driver measured around the run step, so it is never
    empty.  Hence, with [self.results] empty at the start, the condition
    guarding [compare_results] holds exactly when both labeled runs
    succeeded, and [compare_results] is entered exactly then. *)
Theorem run_result_has_total_execution :
  (forall dir name (s : state F Env) t,
      value (run_version dir name s) = Ret (Some t) ->
      t !! "total_execution"
      = Some (fsub (time_time (after_run dir (env s)))
                   (time_time (after_build dir (env s))))
      /\ t <> ∅
      /\ truthy t = true
      /\ exists c c',
           build_outcome dir (env s) = Exited c /\ returncode c = 0%Z
           /\ run_outcome dir (env s) = Exited c' /\ returncode c' = 0%Z)
  /\ (forall dir name (s : state F Env) c c',
         build_outcome dir (env s) = Exited c -> returncode c = 0%Z ->
         run_outcome dir (env s) = Exited c' -> returncode c' = 0%Z ->
         exists t, value (run_version dir name s) = Ret (Some t))
  /\ (forall (clear : bool) (s : state F Env),
         self_results s = init_results ->
         let r := self_results (at_compare clear s) in
         let both :=
           succeeds original_dir "original" (at_original clear s)
           && succeeds optimized_dir "optimized" (at_optimized clear s) in
         truthy (original r) && truthy (optimized r) = both
         /\ (Call "compare_results" [] ∈ log (run_comparison clear s)
             <-> both = true)).
Proof.
  split; [|split].
  - intros dir name s t Hval.
    pose proof (run_version_shape_holds dir name s) as Hsh. revert Hval.
    destruct Hsh as [?|c ? ?|c ? ? ?|c c' ? ? ? ?|c c' Hb Hrc Hr Hrc'];
      cbn [value]; intros Hval; try discriminate Hval.
    injection Hval as <-.
    split; [apply run_result_total_execution|].
    split; [apply run_result_nonempty|].
    split; [apply truthy_run_result|]. now exists c, c'.
  - intros dir name s c c' Hb Hrc Hr Hrc'.
    rewrite (run_version_ok dir name s c c') by assumption. eauto.
  - intros clear s Hinit r both.
    destruct (guard_is_success clear s Hinit) as [Go Gp]. cbv zeta in Go, Gp.
    assert (truthy (original r) && truthy (optimized r) = both) as Hguard
      by (subst r both; now rewrite Go, Gp).
    split; [exact Hguard|].
    pose proof (run_comparison_steps_all clear s) as Hs. cbv zeta in Hs.
    fold r in Hs. rewrite Hguard in Hs.
    destruct (run_original_frame (at_original clear s))
      as (_ & _ & _ & _ & _ & H2 & _).
    destruct (run_optimized_frame (at_optimized clear s))
      as (_ & _ & _ & _ & _ & H4 & _).
    cbv zeta in H2, H4. split.
    + intros H. apply elem_of_steps in H; [|reflexivity]. rewrite Hs in H.
      elem_cases H; try discriminate H. reflexivity.
    + intros Hboth. subst both.
      apply andb_true_iff in Hboth as [Ha Hb].
      destruct H2 as [H2|H2]; [|congruence].
      destruct H4 as [H4|H4]; [|congruence].
      apply elem_of_steps_inv. rewrite Hs, H2, H4, Ha, Hb. cbn [andb opt].
      rewrite !elem_of_app. do 4 right. left. apply elem_of_cons. now left.
Qed.

(** C3, as the code has it. [main] looks at the two directories before it
    looks at its arguments.  With [--help] among the arguments and both
    directories present it prints the two usage lines and exits with
    status 0, without running anything; with a directory missing it prints
    the error lines and exits with status 1, whatever the arguments. *)
Theorem help_needs_both_directories (argv : list string) (s : state F Env) :
  (path_exists "原始版本" (env s) = true ->
   path_exists "optimized_version" (env s) = true ->
   "--help" ∈ argv ->
   value (main argv s) = Raise (SystemExit 0)
   /\ log (main argv s)
      = [ Print "Usage: python compare_performance.py [--no-clear]";
          Print "  --no-clear: Don't clear caches before running (use existing caches)" ]
   /\ env (final (main argv s)) = env s)
  /\ (path_exists "原始版本" (env s) = false
      \/ path_exists "optimized_version" (env s) = false ->
      main argv s
      = Out [ Print "Error: This script must be run from the accelerate_caching directory";
              Print ("Current directory: " +:+ getcwd (env s)) ]
            s (Raise (SystemExit 1))).
Proof.
  split.
  - intros Ha Hb Hhelp. rewrite main_cases, Ha, Hb.
    now rewrite bool_decide_eq_true_2 by exact Hhelp.
  - intros H. rewrite main_cases.
    destruct H as [-> | ->]; [reflexivity|].
    now rewrite orb_true_r.
Qed.

(** ** Further properties of the driver *)

(** *** [clear_caches] *)

Lemma clear_caches_absent s :
  path_exists ".timstof_cache" (env s) = false ->
  path_exists ".timstof_cache_optimized" (env s) = false ->
  clear_caches s
  = Out [Call "clear_caches" []; Print "Clearing caches..."] s (Ret tt).
Proof.
  intros Ha Hb. unfold clear_caches. block_eval. rewrite Ha. mred.
  rewrite Hb. mred. reflexivity.
Qed.

Lemma clear_caches_post s :
  rmtree_removes -> rmtree_creates_nothing ->
  path_exists ".timstof_cache" (env (final (clear_caches s))) = false
  /\ path_exists ".timstof_cache_optimized" (env (final (clear_caches s)))
     = false.
Proof.
  intros Hrm Hkeep. unfold clear_caches. block_eval.
  destruct (path_exists ".timstof_cache" (env s)) eqn:Ea; mred;
    destruct (path_exists ".timstof_cache_optimized" _) eqn:Eb; mred;
    auto.
Qed.

(** X1. When [shutil.rmtree] removes what it is given and makes nothing
    else appear, neither cache directory exists after [clear_caches], and
    calling it again at once removes nothing: it only prints its first
    line and leaves the environment as it is. *)
Theorem clear_caches_clears_and_is_idempotent (s : state F Env) :
  rmtree_removes -> rmtree_creates_nothing ->
  let s1 := final (clear_caches s) in
  path_exists ".timstof_cache" (env s1) = false
  /\ path_exists ".timstof_cache_optimized" (env s1) = false
  /\ clear_caches s1
     = Out [Call "clear_caches" []; Print "Clearing caches..."] s1 (Ret tt).
Proof.
  intros Hrm Hkeep s1.
  destruct (clear_caches_post s Hrm Hkeep) as [Ha Hb].
  split; [exact Ha|]. split; [exact Hb|].
  now apply clear_caches_absent.
Qed.

(** [clear_caches], case by case. *)
Lemma clear_caches_eq s :
  let a := path_exists ".timstof_cache" (env s) in
  let e1 := if a then rmtree ".timstof_cache" (env s) else env s in
  let b := path_exists ".timstof_cache_optimized" e1 in
  clear_caches s
  = Out ([Call "clear_caches" []; Print "Clearing caches..."]
         ++ (if a then [Rmtree ".timstof_cache";
                        Print "  - Original cache cleared"] else [])
         ++ (if b then [Rmtree ".timstof_cache_optimized";
                        Print "  - Optimized cache cleared"] else []))
        (State (if b then rmtree ".timstof_cache_optimized" e1 else e1)
               (self_results s))
        (Ret tt).
Proof.
  unfold clear_caches. block_eval.
  destruct (path_exists ".timstof_cache" (env s)); mred;
    destruct (path_exists ".timstof_cache_optimized" _); mred;
    try reflexivity; now destruct s.
Qed.

Lemma clear_caches_only_caches s p :
  Rmtree p ∈ log (clear_caches s) -> p ∈ cache_paths.
Proof.
  pose proof (clear_caches_eq s) as H. cbv zeta in H. rewrite H.
  cbn [log]. intros Hin. unfold cache_paths.
  elem_cases Hin; try discriminate Hin; injection Hin as ->.
  - apply elem_of_cons. now left.
  - apply elem_of_cons. right. apply elem_of_cons. now left.
Qed.

Lemma no_rmtree_in (l : list (event F)) p :
  List.filter is_rmtree l = [] -> Rmtree p ∈ l -> False.
Proof.
  intros Hnil Hin.
  assert (In (Rmtree p) (List.filter is_rmtree l)) as H.
  { apply List.filter_In. split; [now apply list_elem_of_In | reflexivity]. }
  rewrite Hnil in H. exact H.
Qed.

Lemma prologue_log c s :
  log (prologue c s)
  = [ Call "run_comparison" [py_bool c];
      Print "Starting Performance Comparison";
      Print (repeat_str "=" 60) ]
    ++ (if c then log (clear_caches s) else []).
Proof.
  unfold prologue. destruct c; block_eval; [|reflexivity].
  now destruct (clear_caches s).
Qed.

Lemma run_comparison_log_cases c s e :
  e ∈ log (run_comparison c s) ->
  e ∈ log (prologue c s)
  \/ e ∈ log (run_original (at_original c s))
  \/ e ∈ log (clear_between c (at_clear c s))
  \/ e ∈ log (run_optimized (at_optimized c s))
  \/ e ∈ log (compare_if_both (at_compare c s))
  \/ e ∈ log (save_results (at_compare c s)).
Proof.
  rewrite run_comparison_unfold. cbv zeta.
  destruct (value (run_original (at_original c s)));
    [destruct (value (run_optimized (at_optimized c s)))|];
    cbn [log]; rewrite ?elem_of_app; tauto.
Qed.

Lemma run_comparison_only_caches c s p :
  Rmtree p ∈ log (run_comparison c s) -> p ∈ cache_paths.
Proof.
  intros H. apply run_comparison_log_cases in H.
  destruct (run_original_frame (at_original c s)) as (_ & _ & H2 & _).
  destruct (run_optimized_frame (at_optimized c s)) as (_ & _ & H4 & _).
  destruct (compare_if_both_frame (at_compare c s)) as (_ & _ & _ & H5).
  cbv zeta in H2, H4, H5.
  destruct H as [H|[H|[H|[H|[H|H]]]]].
  - rewrite prologue_log in H. destruct c.
    + apply elem_of_app in H as [H|H];
        [elem_cases H; discriminate H | now apply clear_caches_only_caches in H].
    + elem_cases H; discriminate H.
  - destruct (no_rmtree_in _ _ H2 H).
  - unfold clear_between in H. destruct c.
    + now apply clear_caches_only_caches in H.
    + cbn in H. now apply elem_of_nil in H.
  - destruct (no_rmtree_in _ _ H4 H).
  - destruct (no_rmtree_in _ _ H5 H).
  - rewrite save_results_eq in H. cbn [log] in H.
    elem_cases H; discriminate H.
Qed.

(** X2. Whatever its arguments and however the projects behave, the
    program removes nothing but the two cache directories: every removal
    it performs is of [.timstof_cache] or [.timstof_cache_optimized], never
    of a project directory or of the record file. *)
Theorem driver_removes_only_caches (argv : list string) (s : state F Env) :
  forall p, Rmtree p ∈ log (main argv s) -> p ∈ cache_paths.
Proof.
  intros p. rewrite main_cases.
  destruct (negb _ || negb _);
    [|destruct (bool_decide ("--help" ∈ argv))]; cbv zeta; cbn [log];
    intros H.
  - elem_cases H; discriminate H.
  - elem_cases H; discriminate H.
  - now apply run_comparison_only_caches in H.
Qed.

(** *** The scan *)

Lemma try_store_other t (key : string) (line : pystr) (k : string) :
  k <> key -> try_store key line t !! k = t !! k.
Proof.
  intros Hne. unfold try_store.
  destruct (time_str line) as [tok|]; [|reflexivity].
  destruct (float_of_str tok); [|reflexivity].
  now rewrite lookup_insert_ne by congruence.
Qed.

Lemma scan_line_other t (line : pystr) (k : string) :
  marker_key line <> Some k -> scan_line t line !! k = t !! k.
Proof.
  intros Hne. rewrite scan_line_marker_key.
  destruct (marker_key line) as [k'|]; [|reflexivity].
  apply try_store_other. congruence.
Qed.

Lemma marker_key_scraped (line : pystr) (k : string) :
  marker_key line = Some k -> k ∈ scraped_keys.
Proof.
  unfold marker_key, marker_table, scraped_keys. cbn [List.find fst snd].
  repeat (destruct (contains _ (lower line));
          [intros [= <-]; set_solver|]).
  discriminate.
Qed.

Lemma scan_lines_other t (l : list pystr) (k : string) :
  (forall line, line ∈ l -> marker_key line <> Some k) ->
  fold_left scan_line l t !! k = t !! k.
Proof.
  revert t. induction l as [|x l IH]; intros t H; [reflexivity|].
  cbn [fold_left]. rewrite IH.
  - apply scan_line_other, H, elem_of_cons. now left.
  - intros line Hl. apply H, elem_of_cons. now right.
Qed.

(** X3. One line feeds at most one entry: the one of the first marker it
    contains, in the order loading, saving, reading, preparation.  A line
    that carries the loading marker never changes another entry, even when
    it carries a second marker too, and a line changes nothing under a key
    that is not one of the four scraped ones. *)
Theorem scan_line_feeds_first_marker_only
    (t : gmap string F) (line : pystr) (k : string) :
  (marker_key line <> Some k -> scan_line t line !! k = t !! k)
  /\ (contains "cache loading time" (lower line) = true ->
      k <> "cache_loading" -> scan_line t line !! k = t !! k)
  /\ (k ∉ scraped_keys -> scan_line t line !! k = t !! k).
Proof.
  split; [apply scan_line_other|]. split.
  - intros Hc Hne. apply scan_line_other.
    unfold marker_key, marker_table. cbn [List.find fst snd].
    rewrite Hc. cbn. congruence.
  - intros Hk. apply scan_line_other. intros H.
    now apply marker_key_scraped in H.
Qed.

(** X4. When several lines give a value for the same metric the last one
    counts: after a line that matches the marker of [k] and whose token
    [float] reads as [v], and with no later line whose first marker is the
    one of [k], the scan ends with the entry [k = v], whatever came before. *)
Theorem last_timing_line_wins
    (t : gmap string F) (l1 l2 : list pystr) (line : pystr) (k : string)
    (tok : pystr) (v : F) :
  marker_key line = Some k ->
  time_str line = Some tok ->
  float_of_str tok = Some v ->
  (forall later, later ∈ l2 -> marker_key later <> Some k) ->
  fold_left scan_line (l1 ++ line :: l2) t !! k = Some v.
Proof.
  intros Hk Hts Hv Hlater.
  rewrite fold_left_app. cbn [fold_left].
  rewrite scan_lines_other by exact Hlater.
  rewrite (scan_line_store _ line k tok v Hk Hts Hv).
  apply lookup_insert_eq.
Qed.

Lemma scan_output_keys (text : pystr) (k : string) :
  is_Some (scan_output text !! k) -> k ∈ scraped_keys.
Proof.
  unfold scan_output.
  assert (forall (l : list pystr) (t : gmap string F),
             (forall k, is_Some (t !! k) -> k ∈ scraped_keys) ->
             forall k, is_Some (fold_left scan_line l t !! k) ->
                       k ∈ scraped_keys) as Hfold.
  { induction l as [|x l IH]; intros t Ht k0; [apply Ht|].
    cbn [fold_left]. apply IH. intros k1 Hk1.
    destruct (decide (marker_key x = Some k1)) as [E|E].
    - now apply marker_key_scraped in E.
    - rewrite scan_line_other in Hk1 by exact E. now apply Ht. }
  apply Hfold. intros k0 [x Hx]. now rewrite lookup_empty in Hx.
Qed.

(** X5. Every key of a Run Result that [run_version] returns is one of
    the six metrics of the comparison table, so nothing that was measured
    is left out of the table for want of a row; the output text decides
    only the four scraped keys and cannot set or change [total_execution]
    or [cache_size_mb]. *)
Theorem run_result_keys_are_metrics
    dir name (s : state F Env) (t : gmap string F) :
  value (run_version dir name s) = Ret (Some t) ->
  (forall k, is_Some (t !! k) -> k ∈ map snd metrics)
  /\ t !! "cache_size_mb"
     = (if path_exists (cache_dir_of name) (after_run dir (env s))
        then Some (int_truediv
                     (tree_size (cache_dir_of name) (after_run dir (env s)))
                     (1024 * 1024))
        else None)
  /\ (forall k, k ∈ scraped_keys ->
        exists c', run_outcome dir (env s) = Exited c'
                   /\ t !! k = scan_output (stdout c') !! k).
Proof.
  intros Hval.
  pose proof (run_version_shape_holds dir name s) as Hsh. revert Hval.
  destruct Hsh as [?|c ? ?|c ? ? ?|c c' ? ? ? ?|c c' Hb Hrc Hr Hrc'];
    cbn [value]; intros Hval; try discriminate Hval.
  injection Hval as <-.
  assert (scan_output (stdout c') !! "cache_size_mb" = None) as Hcs.
  { destruct (scan_output (stdout c') !! "cache_size_mb") eqn:E;
      [|reflexivity].
    assert ("cache_size_mb" ∈ scraped_keys) as Hin
      by (apply (scan_output_keys (stdout c')); rewrite E; eauto).
    unfold scraped_keys in Hin. elem_cases Hin; discriminate Hin. }
  split; [|split].
  - intros k Hk. unfold run_result in Hk.
    assert (k = "cache_size_mb" \/ k = "total_execution" \/ k ∈ scraped_keys)
      as Hcases.
    { destruct (decide (k = "cache_size_mb")) as [->|N1]; [now left|].
      destruct (decide (k = "total_execution")) as [->|N2];
        [right; now left|].
      right. right. apply (scan_output_keys (stdout c')).
      destruct (path_exists _ _);
        now rewrite ?lookup_insert_ne in Hk by congruence. }
    unfold metrics, scraped_keys in *. cbn [map snd].
    destruct Hcases as [->|[->|Hin]]; [set_solver|set_solver|].
    elem_cases Hin; subst k; set_solver.
  - unfold run_result. destruct (path_exists _ _).
    + apply lookup_insert_eq.
    + now rewrite lookup_insert_ne by discriminate.
  - intros k Hin. exists c'. split; [exact Hr|].
    unfold run_result, scraped_keys in *.
    elem_cases Hin; subst k;
      destruct (path_exists _ _);
      now rewrite ?lookup_insert_ne by discriminate.
Qed.

Lemma split_pieces_no_sep (sep : N) (s piece : pystr) :
  piece ∈ split sep s -> all_chars (not_sep sep) piece = true.
Proof.
  revert piece. induction s as [|c s IH]; intros piece; cbn [split].
  - intros H. elem_cases H. now subst piece.
  - destruct (c =? sep)%N eqn:E.
    + intros [->|H]%elem_of_cons; [reflexivity | now apply IH].
    + destruct (split_slices sep s) as (h & t & Hs & _). rewrite Hs in *.
      intros [->|H]%elem_of_cons.
      * cbn [all_chars]. unfold not_sep at 1. rewrite E. cbn [negb andb].
        apply IH, elem_of_cons. now left.
      * apply IH, elem_of_cons. now right.
Qed.

Lemma last_item_in (l : list pystr) :
  l <> [] -> last_item l ∈ l.
Proof.
  unfold last_item. induction l as [|x l IH]; [congruence|]. intros _.
  destruct l as [|y l]; cbn [List.last].
  - apply elem_of_cons. now left.
  - apply elem_of_cons. right. now apply IH.
Qed.

Lemma all_chars_lstrip (P : N -> bool) (s : pystr) :
  all_chars P s = true -> all_chars P (lstrip s) = true.
Proof.
  induction s as [|c s IH]; [reflexivity|]. cbn [lstrip].
  destruct (isspace c); [|tauto].
  cbn [all_chars]. now intros [_ H]%andb_true_iff; apply IH.
Qed.

Lemma all_chars_take_token (P : N -> bool) (s : pystr) :
  all_chars P s = true -> all_chars P (take_token s) = true.
Proof.
  induction s as [|c s IH]; [reflexivity|]. cbn [take_token all_chars].
  intros [Hc Hs]%andb_true_iff. destruct (isspace c); [reflexivity|].
  cbn [all_chars]. now rewrite Hc, IH.
Qed.

Lemma take_token_no_space (s : pystr) :
  all_chars not_space (take_token s) = true.
Proof.
  induction s as [|c s IH]; [reflexivity|]. cbn [take_token].
  destruct (isspace c) eqn:E; [reflexivity|].
  cbn [all_chars]. unfold not_space at 1. now rewrite E, IH.
Qed.

Lemma lstrip_starts_token (s : pystr) :
  lstrip s = [] \/ starts_token (lstrip s) = true.
Proof.
  induction s as [|c s IH]; [now left|].
  cbn [lstrip]. destruct (isspace c) eqn:E; [exact IH|].
  right. cbn [starts_token]. now rewrite E.
Qed.

(** X6. A token that the scan hands to [float] is never empty and holds
    neither whitespace (of any kind that Unicode has) nor a colon: a value
    written with a colon, as in [time: 00:12.5 s], is read from after its
    last colon. *)
Theorem time_str_token_shape (line tok : pystr) :
  time_str line = Some tok ->
  tok <> []
  /\ all_chars not_space tok = true
  /\ all_chars not_colon tok = true.
Proof.
  rewrite time_str_first_token, <- last_item_after_last_colon.
  assert (all_chars not_colon (last_item (split ":" line)) = true) as Hnc.
  { apply (split_pieces_no_sep (ord ":") line), last_item_in.
    destruct (split_slices (ord ":") line) as (h & t & -> & _). discriminate. }
  revert Hnc. generalize (last_item (split ":" line)). intros x Hnc.
  unfold first_token.
  pose proof (lstrip_starts_token x) as Hst.
  pose proof (all_chars_lstrip _ _ Hnc) as Hnc'.
  destruct (lstrip x) as [|c r] eqn:E; [discriminate|].
  intros [= <-]. destruct Hst as [Hst|Hst]; [discriminate|].
  split; [|split].
  - cbn [starts_token take_token] in *. apply negb_true_iff in Hst.
    now rewrite Hst.
  - apply (take_token_no_space (c :: r)).
  - now apply (all_chars_take_token not_colon (c :: r)).
Qed.

(** *** [run_version] *)

(** X7. When the build step exits with zero and the run step exits with
    another status, [run_version] returns [None] after exactly these two
    child processes, prints [Execution failed for <name>:] and the captured
    error stream last, and leaves [self.results] alone; the label counts as
    not succeeded. *)
Theorem run_failure_gives_no_result dir name (s : state F Env) c c' :
  build_outcome dir (env s) = Exited c -> returncode c = 0%Z ->
  run_outcome dir (env s) = Exited c' -> returncode c' <> 0%Z ->
  value (run_version dir name s) = Ret None
  /\ List.filter is_subprocess (log (run_version dir name s))
     = [ Subprocess ["cargo"; "build"; "--release"] dir None;
         Subprocess ["cargo"; "run"; "--release"] dir (Some 600%Z) ]
  /\ (exists l, log (run_version dir name s)
                = l ++ [ Print ("Execution failed for " +:+ name +:+ ":");
                         Print (stderr c') ])
  /\ self_results (final (run_version dir name s)) = self_results s
  /\ succeeds dir name s = false.
Proof.
  intros Hb Hrc Hr Hrc'. unfold succeeds.
  rewrite (run_version_run_fails dir name s c c' Hb Hrc Hr Hrc').
  cbn [value log final self_results].
  split; [reflexivity|]. split; [reflexivity|]. split.
  - eexists (run_version_head dir name ++ [_]).
    now rewrite <- app_assoc.
  - split; [reflexivity | apply andb_false_r].
Qed.

Lemma run_version_processes dir name s :
  List.filter is_subprocess (log (run_version dir name s))
  = label_processes dir (env s).
Proof.
  unfold label_processes, build_ok.
  destruct (run_version_shape_holds dir name s)
    as [Hb|c Hb Hrc|c Hb Hrc ?|c c' Hb Hrc ? ?|c c' Hb Hrc ? ?];
    rewrite Hb; cbn [log].
  - reflexivity.
  - apply Z.eqb_neq in Hrc. now rewrite Hrc.
  - now rewrite Hrc.
  - now rewrite Hrc.
  - now rewrite Hrc.
Qed.

(** X8. Whatever happens, [run_version] starts the build first, in the
    version's directory and without a time bound, and starts the run (same
    directory, bound 600 seconds) exactly when the build exited with zero;
    it starts no other process, removes nothing and writes no record. *)
Theorem run_version_child_processes dir name (s : state F Env) :
  List.filter is_subprocess (log (run_version dir name s))
  = label_processes dir (env s)
  /\ List.filter is_rmtree (log (run_version dir name s)) = []
  /\ steps (log (run_version dir name s)) = [Call "run_version" [dir; name]].
Proof.
  split; [apply run_version_processes|].
  destruct (run_version_frame dir name s) as (_ & Hs & Hr & _).
  now split.
Qed.

(** *** [run_comparison] *)

Lemma at_compare_results c s :
  self_results (at_compare c s) = results_after c s.
Proof.
  destruct (results_at_compare c s) as [Ho Hp]. cbv zeta in Ho, Hp.
  unfold results_after. rewrite <- Ho, <- Hp.
  now destruct (self_results (at_compare c s)).
Qed.

Lemma run_comparison_value_cases c s :
  value (run_comparison c s) = Ret tt
  \/ value (run_comparison c s) = Raise TimeoutExpired.
Proof.
  rewrite run_comparison_unfold. cbv zeta.
  destruct (run_original_frame (at_original c s))
    as (_ & _ & _ & _ & H2 & _).
  destruct (run_optimized_frame (at_optimized c s))
    as (_ & _ & _ & _ & H4 & _).
  cbv zeta in H2, H4.
  destruct H2 as [-> | ->]; [|now right].
  destruct H4 as [-> | ->]; [now left | now right].
Qed.

(** X9. [run_comparison] does not reset [self.results]: when it completes,
    each label's entry is the Run Result of its run if that run succeeded,
    and otherwise what the entry held before the call.  This is the state
    it ends in and also the record it writes, so an object used for a
    second comparison can report values of the first. *)
Theorem run_comparison_keeps_previous_entries (c : bool) (s : state F Env) :
  value (run_comparison c s) = Ret tt ->
  self_results (final (run_comparison c s)) = results_after c s
  /\ JsonDump "performance_comparison.json" (results_after c s)
     ∈ log (run_comparison c s)
  /\ (succeeds original_dir "original" (at_original c s) = false ->
      original (self_results (final (run_comparison c s)))
      = original (self_results s))
  /\ (succeeds optimized_dir "optimized" (at_optimized c s) = false ->
      optimized (self_results (final (run_comparison c s)))
      = optimized (self_results s)).
Proof.
  intros Hv.
  destruct (run_comparison_final c s Hv) as [Hfinal [l Hlog]].
  cbv zeta in Hfinal, Hlog. rewrite at_compare_results in Hfinal, Hlog.
  rewrite Hfinal. cbn [self_results].
  split; [reflexivity|]. split.
  - rewrite Hlog. apply elem_of_app. right. apply elem_of_cons. now left.
  - unfold results_after. cbn [original optimized].
    split; now intros ->.
Qed.

Lemma run_original_missing s :
  path_exists original_dir (env s) = false ->
  run_original s
  = Out [Print ("Warning: Original version directory not found: "
                +:+ original_dir)] s (Ret tt).
Proof. intros H. unfold run_original. block_eval. now rewrite H. Qed.

Lemma run_optimized_missing s :
  path_exists optimized_dir (env s) = false ->
  run_optimized s
  = Out [Print ("Warning: Optimized version directory not found: "
                +:+ optimized_dir)] s (Ret tt).
Proof. intros H. unfold run_optimized. block_eval. now rewrite H. Qed.

(** X10. Called without clearing from a place where neither project
    directory exists, and with the empty results of [__init__],
    [run_comparison] starts no process and compares nothing: it prints the
    two warnings and still writes the record, with two empty mappings. *)
Theorem run_comparison_without_directories (s : state F Env) :
  path_exists original_dir (env s) = false ->
  path_exists optimized_dir (env s) = false ->
  self_results s = init_results ->
  run_comparison false s
  = Out [ Call "run_comparison" ["False"];
          Print "Starting Performance Comparison";
          Print (repeat_str "=" 60);
          Print ("Warning: Original version directory not found: "
                 +:+ original_dir);
          Print ("Warning: Optimized version directory not found: "
                 +:+ optimized_dir);
          JsonDump "performance_comparison.json" init_results;
          Print (nl +:+ "Detailed results saved to: performance_comparison.json") ]
        (State (json_dump "performance_comparison.json" init_results (env s))
               init_results)
        (Ret tt).
Proof.
  intros Ha Hb Hinit.
  assert (at_original false s = s) as E1
    by (unfold at_original; now destruct (prologue_no_clear s)).
  assert (at_clear false s = s) as E2
    by (unfold at_clear; now rewrite E1, (run_original_missing s Ha)).
  assert (at_optimized false s = s) as E3
    by (unfold at_optimized; now rewrite E2).
  assert (at_compare false s = s) as E4
    by (unfold at_compare; now rewrite E3, (run_optimized_missing s Hb)).
  rewrite run_comparison_unfold. cbv zeta.
  rewrite E1, E2, E3, E4.
  rewrite (run_original_missing s Ha), (run_optimized_missing s Hb).
  cbn [value log]. rewrite save_results_eq, Hinit. cbn [log final].
  unfold compare_if_both. block_eval. rewrite Hinit.
  cbn [init_results original optimized]. rewrite truthy_empty.
  cbn [andb]. mred. unfold prologue, clear_between. block_eval.
  reflexivity.
Qed.

Lemma run_optimized_timeout s c :
  path_exists optimized_dir (env s) = true ->
  build_outcome optimized_dir (env s) = Exited c ->
  returncode c = 0%Z ->
  run_outcome optimized_dir (env s) = TimedOut ->
  value (run_optimized s) = Raise TimeoutExpired.
Proof.
  intros Hex Hb Hrc Hr. unfold run_optimized. block_eval. rewrite Hex.
  now rewrite (run_version_run_timeout _ _ _ c Hb Hrc Hr).
Qed.

(** X11. A time-out in the run of the optimized label, after the original
    label succeeded, ends [run_comparison] with [TimeoutExpired]: no record
    is written, although the Run Result of the original label is by then in
    [self.results]. *)
Theorem optimized_timeout_loses_original_result
    (c : bool) (s : state F Env) (cb : completed) :
  succeeds original_dir "original" (at_original c s) = true ->
  path_exists optimized_dir (env (at_optimized c s)) = true ->
  build_outcome optimized_dir (env (at_optimized c s)) = Exited cb ->
  returncode cb = 0%Z ->
  run_outcome optimized_dir (env (at_optimized c s)) = TimedOut ->
  value (run_comparison c s) = Raise TimeoutExpired
  /\ (forall p r, JsonDump p r ∉ log (run_comparison c s))
  /\ original (self_results (final (run_comparison c s)))
     = label_result original_dir "original" (at_original c s)
  /\ label_result original_dir "original" (at_original c s) <> ∅.
Proof.
  intros Hok Hex Hb Hrc Hr.
  destruct (run_original_frame (at_original c s))
    as (_ & _ & _ & _ & _ & H2 & _ & Hne). cbv zeta in H2, Hne.
  destruct H2 as [H2|H2]; [|congruence].
  pose proof (run_optimized_timeout _ cb Hex Hb Hrc Hr) as H4.
  assert (value (run_comparison c s) = Raise TimeoutExpired) as Hv.
  { rewrite run_comparison_unfold. cbv zeta. now rewrite H2, H4. }
  split; [exact Hv|]. split; [|split].
  - intros p r (_ & _ & Hret)%run_comparison_dump. congruence.
  - rewrite run_comparison_results, H2.
    destruct (results_at_compare c s) as [Ho _]. cbv zeta in Ho.
    now rewrite Ho, Hok.
  - now apply Hne.
Qed.

Lemma run_version_timeout_iff dir name s :
  value (run_version dir name s) = Raise TimeoutExpired
  <-> times_out dir (env s) = true.
Proof.
  unfold times_out.
  destruct (run_version_shape_holds dir name s)
    as [Hb|cb Hb Hrc|cb Hb Hrc Hr|cb cr Hb Hrc Hr Hrc'|cb cr Hb Hrc Hr Hrc'];
    cbn [value]; rewrite Hb.
  - tauto.
  - apply Z.eqb_neq in Hrc. rewrite Hrc. cbn [andb].
    split; discriminate.
  - rewrite Hrc, Hr. cbn [Z.eqb andb]. tauto.
  - rewrite Hrc, Hr. cbn [Z.eqb andb]. split; discriminate.
  - rewrite Hrc, Hr. cbn [Z.eqb andb]. split; discriminate.
Qed.

Lemma run_original_timeout_iff s :
  value (run_original s) = Raise TimeoutExpired
  <-> path_exists original_dir (env s) && times_out original_dir (env s)
      = true.
Proof.
  rewrite andb_true_iff, <- (run_version_timeout_iff original_dir "original" s).
  unfold run_original. block_eval.
  destruct (path_exists original_dir (env s)); mred;
    [|split; [discriminate | intros [H _]; discriminate H]].
  destruct (run_version original_dir "original" s) as [l f [[t|]|e]]; mred.
  - destruct (truthy t); mred;
      (split; [discriminate | intros [_ H]; discriminate H]).
  - split; [discriminate | intros [_ H]; discriminate H].
  - split.
    + intros [= ->]. now split.
    + intros [_ [= ->]]. reflexivity.
Qed.

Lemma run_optimized_timeout_iff s :
  value (run_optimized s) = Raise TimeoutExpired
  <-> path_exists optimized_dir (env s) && times_out optimized_dir (env s)
      = true.
Proof.
  rewrite andb_true_iff, <- (run_version_timeout_iff optimized_dir "optimized" s).
  unfold run_optimized. block_eval.
  destruct (path_exists optimized_dir (env s)); mred;
    [|split; [discriminate | intros [H _]; discriminate H]].
  destruct (run_version optimized_dir "optimized" s) as [l f [[t|]|e]]; mred.
  - destruct (truthy t); mred;
      (split; [discriminate | intros [_ H]; discriminate H]).
  - split; [discriminate | intros [_ H]; discriminate H].
  - split.
    + intros [= ->]. now split.
    + intros [_ [= ->]]. reflexivity.
Qed.

(** X12. [subprocess.TimeoutExpired] leaves [run_comparison] only when a
    child process of a labeled run, in a directory that is there, ran out
    of time.  Such a time-out in the original label always ends
    [run_comparison] with that exception, and so does one in the optimized
    label once the block of the original label has completed; nothing
    catches it.  No record is written then. *)
Theorem timeout_escapes_from_a_timed_out_step (c : bool) (s : state F Env) :
  let in_original :=
    path_exists original_dir (env (at_original c s))
    && times_out original_dir (env (at_original c s)) in
  let in_optimized :=
    path_exists optimized_dir (env (at_optimized c s))
    && times_out optimized_dir (env (at_optimized c s)) in
  (value (run_comparison c s) = Raise TimeoutExpired ->
   (in_original = true
    \/ (value (run_original (at_original c s)) = Ret tt
        /\ in_optimized = true))
   /\ forall p r, JsonDump p r ∉ log (run_comparison c s))
  /\ (in_original = true ->
      value (run_comparison c s) = Raise TimeoutExpired)
  /\ (value (run_original (at_original c s)) = Ret tt ->
      in_optimized = true ->
      value (run_comparison c s) = Raise TimeoutExpired).
Proof.
  intros in_original in_optimized. subst in_original in_optimized.
  rewrite <- run_original_timeout_iff, <- run_optimized_timeout_iff.
  assert (value (run_comparison c s)
          = match value (run_original (at_original c s)) with
            | Raise e => Raise e
            | Ret _ => value (run_optimized (at_optimized c s))
            end) as Hval.
  { rewrite run_comparison_unfold. cbv zeta.
    destruct (value (run_original (at_original c s))) as [[]|e];
      [|reflexivity].
    destruct (run_optimized_frame (at_optimized c s))
      as (_ & _ & _ & _ & [H4|H4] & _); cbv zeta in H4; now rewrite H4. }
  split; [|split].
  - intros Hv. split.
    + rewrite Hval in Hv.
      destruct (value (run_original (at_original c s))) as [[]|e];
        [right; now split | now left].
    + intros p r (_ & _ & Hret)%run_comparison_dump. congruence.
  - intros H. now rewrite Hval, H.
  - intros H2 H4. now rewrite Hval, H2.
Qed.

Lemma prologue_final_clear s :
  final (prologue true s) = final (clear_caches s).
Proof.
  unfold prologue. block_eval. now destruct (clear_caches s).
Qed.

(** X13. With clearing on, and a [shutil.rmtree] that removes what it is
    given and makes nothing else appear, neither cache directory exists
    when the run of the original label starts, nor when the run of the
    optimized label starts: the cache the first run left is gone before
    the second. *)
Theorem caches_absent_before_each_run (s : state F Env) (p : string) :
  rmtree_removes -> rmtree_creates_nothing ->
  p ∈ cache_paths ->
  path_exists p (env (at_original true s)) = false
  /\ path_exists p (env (at_optimized true s)) = false.
Proof.
  intros Hrm Hkeep Hp.
  destruct (clear_caches_post s Hrm Hkeep) as [Ha Hb].
  destruct (clear_caches_post (at_clear true s) Hrm Hkeep) as [Ha' Hb'].
  unfold at_original. rewrite prologue_final_clear.
  unfold at_optimized, clear_between.
  unfold cache_paths in Hp. elem_cases Hp; subst p; auto.
Qed.

(** *** [main] *)

(** X14. [main] reads its arguments only to see whether [--help] and
    [--no-clear] are among them: two argument lists that agree on these
    two memberships give the same run.  The program name, the order of the
    arguments, repetitions and unknown arguments change nothing, and no
    argument is refused. *)
Theorem main_ignores_other_arguments
    (argv argv' : list string) (s : state F Env) :
  ("--help" ∈ argv <-> "--help" ∈ argv') ->
  ("--no-clear" ∈ argv <-> "--no-clear" ∈ argv') ->
  main argv s = main argv' s.
Proof.
  intros Hhelp Hclear. rewrite !main_cases.
  now rewrite (bool_decide_ext _ _ Hhelp), (bool_decide_ext _ _ Hclear).
Qed.

(** X15. When [main] ends by [sys.exit] the status is 0 or 1, and until
    then it has only printed: no child process was started, nothing was
    removed and no record was written.  Status 1 means that a project
    directory is missing, status 0 that both are there and [--help] was
    given. *)
Theorem main_exit_status (argv : list string) (s : state F Env) (n : Z) :
  value (main argv s) = Raise (SystemExit n) ->
  (n = 0%Z \/ n = 1%Z)
  /\ List.filter (fun e => negb (is_print e)) (log (main argv s)) = []
  /\ env (final (main argv s)) = env s
  /\ (n = 1%Z <->
      path_exists "原始版本" (env s) = false
      \/ path_exists "optimized_version" (env s) = false)
  /\ (n = 0%Z -> "--help" ∈ argv).
Proof.
  rewrite main_cases.
  destruct (path_exists "原始版本" (env s));
    destruct (path_exists "optimized_version" (env s)); cbn [negb orb];
    try (cbn [value log final]; intros [= <-];
         repeat split; auto; try discriminate; tauto).
  destruct (bool_decide ("--help" ∈ argv)) eqn:Eh.
  - cbn [value log final env]. intros [= <-].
    apply bool_decide_eq_true_1 in Eh.
    repeat split; auto; try discriminate.
    intros [H|H]; discriminate H.
  - cbv zeta. cbn [value]. intros H.
    destruct (run_comparison_value_cases
                (negb (bool_decide ("--no-clear" ∈ argv)))
                (State (env s) init_results)) as [E|E];
      rewrite E in H; discriminate H.
Qed.

(** *** The table *)

(** X16. The table is padded, never cut: a cell is written whole at the
    start of its column and followed by spaces up to the column width (20,
    15, 15 and 10), so a line is 63 characters long when every cell fits
    its column and longer by the excess of each cell that does not. *)
Theorem table_line_pads_never_truncates (c1 c2 c3 c4 : string) :
  String.length (table_line c1 c2 c3 c4)
  = Nat.max 20 (String.length c1) + Nat.max 15 (String.length c2)
    + Nat.max 15 (String.length c3) + Nat.max 10 (String.length c4) + 3
  /\ startswith c1 (table_line c1 c2 c3 c4) = true
  /\ (String.length c1 <= 20 -> String.length c2 <= 15 ->
      String.length c3 <= 15 -> String.length c4 <= 10 ->
      String.length (table_line c1 c2 c3 c4) = 63).
Proof.
  assert (String.length (table_line c1 c2 c3 c4)
          = Nat.max 20 (String.length c1) + Nat.max 15 (String.length c2)
            + Nat.max 15 (String.length c3) + Nat.max 10 (String.length c4)
            + 3) as Hlen.
  { unfold table_line. rewrite !length_sapp, !length_ljust. cbn. lia. }
  split; [exact Hlen|]. split.
  - apply startswith_spec. unfold table_line, ljust.
    rewrite !sapp_assoc. eauto.
  - intros H1 H2 H3 H4. rewrite Hlen. lia.
Qed.

Lemma length_report_row (r : results F) (display_name key : string) :
  length (report_row r display_name key)
  = if some_available r key then 1 else 0.
Proof.
  unfold report_row, some_available.
  destruct (available (original r) key), (available (optimized r) key);
    reflexivity.
Qed.

(** X17. [compare_results] only prints: it never raises and leaves the
    state as it is.  After its five heading lines it prints one line for
    each of the six metrics for which at least one label holds a strictly
    positive value, so between none and six lines; a metric that is
    missing, zero or negative on both sides gets no line at all. *)
Theorem compare_results_prints_one_line_per_available_metric
    (s : state F Env) :
  value (compare_results s) = Ret tt
  /\ final (compare_results s) = s
  /\ List.filter (fun e => negb (is_print e)) (log (compare_results s))
     = [Call "compare_results" []]
  /\ length (log (compare_results s))
     = 6 + length (List.filter (some_available (self_results s))
                               (map snd metrics))
  /\ length (log (compare_results s)) <= 12.
Proof.
  rewrite compare_results_eq. cbn [value final log].
  assert (forall l : list (string * string),
             List.filter (fun e : event F => negb (is_print e))
               (flat_map (fun m => report_row (self_results s) (fst m) (snd m))
                         l) = []) as Hprints.
  { induction l as [|m l IH]; [reflexivity|].
    cbn [flat_map]. rewrite List.filter_app, IH. unfold report_row.
    destruct (available (original _) _), (available (optimized _) _);
      reflexivity. }
  assert (forall l : list (string * string),
             length (flat_map
                       (fun m => report_row (self_results s) (fst m) (snd m)) l)
             = length (List.filter (some_available (self_results s))
                                   (map snd l))) as Hcount.
  { induction l as [|m l IH]; [reflexivity|].
    cbn [flat_map map List.filter]. rewrite length_app, IH, length_report_row.
    now destruct (some_available (self_results s) (snd m)). }
  split; [reflexivity|]. split; [reflexivity|]. split; [|split].
  - unfold table_header. rewrite List.filter_app, Hprints. reflexivity.
  - unfold table_header. rewrite length_app, Hcount. reflexivity.
  - unfold table_header. rewrite length_app, Hcount.
    pose proof (List.filter_length_le (some_available (self_results s))
                  (map snd metrics)) as Hle.
    change (length (map snd metrics)) with 6 in Hle. cbn [length]. lia.
Qed.

(** *** The child processes of a whole run *)

Lemma label_log_original s :
  log (run_original s)
  = if path_exists original_dir (env s)
    then log (run_version original_dir "original" s)
    else [Print ("Warning: Original version directory not found: "
                 +:+ original_dir)].
Proof.
  unfold run_original. block_eval.
  destruct (path_exists original_dir (env s)); mred; [|reflexivity].
  destruct (run_version original_dir "original" s) as [l f [[t|]|e]]; mred;
    try destruct (truthy t); mred; now rewrite ?app_nil_r.
Qed.

Lemma label_log_optimized s :
  log (run_optimized s)
  = if path_exists optimized_dir (env s)
    then log (run_version optimized_dir "optimized" s)
    else [Print ("Warning: Optimized version directory not found: "
                 +:+ optimized_dir)].
Proof.
  unfold run_optimized. block_eval.
  destruct (path_exists optimized_dir (env s)); mred; [|reflexivity].
  destruct (run_version optimized_dir "optimized" s) as [l f [[t|]|e]]; mred;
    try destruct (truthy t); mred; now rewrite ?app_nil_r.
Qed.

Lemma clear_caches_no_process s :
  List.filter is_subprocess (log (clear_caches s)) = [].
Proof.
  pose proof (clear_caches_eq s) as H. cbv zeta in H. rewrite H. cbn [log].
  destruct (path_exists ".timstof_cache" (env s));
    destruct (path_exists ".timstof_cache_optimized" _); reflexivity.
Qed.

Lemma compare_if_both_no_process s :
  List.filter is_subprocess (log (compare_if_both s)) = [].
Proof.
  unfold compare_if_both. block_eval.
  destruct (truthy _ && truthy _); mred; [|reflexivity].
  rewrite compare_results_eq. mred. unfold table_header.
  rewrite List.filter_app. cbn [List.filter is_subprocess app].
  induction metrics as [|m l IH]; [reflexivity|].
  cbn [flat_map]. rewrite List.filter_app, IH. unfold report_row.
  destruct (available (original _) _), (available (optimized _) _);
    reflexivity.
Qed.

(** X18. The two projects are never built or run at the same time, and
    at most four child processes are started, in a fixed order: build and
    run of the original label in its directory, then build and run of the
    optimized label in its directory, each run only after a build that
    exited with zero, and nothing of the optimized label before the
    original label has returned. *)
Theorem run_comparison_child_processes (c : bool) (s : state F Env) :
  List.filter is_subprocess (log (run_comparison c s))
  = (if path_exists original_dir (env (at_original c s))
     then label_processes original_dir (env (at_original c s)) else [])
    ++ match value (run_original (at_original c s)) with
       | Raise _ => []
       | Ret _ =>
           if path_exists optimized_dir (env (at_optimized c s))
           then label_processes optimized_dir (env (at_optimized c s))
           else []
       end
  /\ length (List.filter is_subprocess (log (run_comparison c s))) <= 4.
Proof.
  assert (List.filter is_subprocess (log (prologue c s)) = []) as H1.
  { rewrite prologue_log, List.filter_app. cbn [List.filter is_subprocess app].
    destruct c; [apply clear_caches_no_process | reflexivity]. }
  assert (List.filter is_subprocess (log (clear_between c (at_clear c s)))
          = []) as H3.
  { unfold clear_between. destruct c;
      [apply clear_caches_no_process | reflexivity]. }
  assert (List.filter is_subprocess (log (run_original (at_original c s)))
          = if path_exists original_dir (env (at_original c s))
            then label_processes original_dir (env (at_original c s))
            else []) as H2.
  { rewrite label_log_original. destruct (path_exists original_dir _);
      [apply run_version_processes | reflexivity]. }
  assert (List.filter is_subprocess (log (run_optimized (at_optimized c s)))
          = if path_exists optimized_dir (env (at_optimized c s))
            then label_processes optimized_dir (env (at_optimized c s))
            else []) as H4.
  { rewrite label_log_optimized. destruct (path_exists optimized_dir _);
      [apply run_version_processes | reflexivity]. }
  pose proof (compare_if_both_no_process (at_compare c s)) as H5.
  assert (List.filter is_subprocess (log (run_comparison c s))
          = (if path_exists original_dir (env (at_original c s))
             then label_processes original_dir (env (at_original c s))
             else [])
            ++ match value (run_original (at_original c s)) with
               | Raise _ => []
               | Ret _ =>
                   if path_exists optimized_dir (env (at_optimized c s))
                   then label_processes optimized_dir (env (at_optimized c s))
                   else []
               end) as Heq.
  { rewrite run_comparison_unfold. cbv zeta.
    destruct (value (run_original (at_original c s))); cbn [log];
      [destruct (value (run_optimized (at_optimized c s))); cbn [log]|];
      rewrite ?List.filter_app, ?H1, ?H2, ?H3, ?H4, ?H5, ?save_results_eq;
      cbn [log List.filter is_subprocess app]; now rewrite ?app_nil_r. }
  split; [exact Heq|]. rewrite Heq, length_app.
  assert (forall dir e, length (label_processes dir e) <= 2) as Hle.
  { intros dir e. unfold label_processes.
    destruct (build_ok dir e); cbn; lia. }
  pose proof (Hle original_dir (env (at_original c s))).
  pose proof (Hle optimized_dir (env (at_optimized c s))).
  destruct (path_exists original_dir _), (value (run_original _));
    try destruct (path_exists optimized_dir _); cbn [length]; lia.
Qed.

End DriverFacts.

(** ** The properties on the concrete world *)

Import Demo.

(** The timeout of the original label's run step ends the whole run. *)
Lemma run_timeout_is_not_caught_witness :
  value (run_version original_dir "original" (at_original true s_times_out))
  = Raise TimeoutExpired
  /\ value (run_comparison true s_times_out) = Raise TimeoutExpired.
Proof.
  destruct (@run_timeout_is_not_caught Q world _ _) as [Hrun Hcmp]. split.
  - apply (Hrun _ _ _ (Completed 0 "" "")); reflexivity.
  - apply (Hcmp true s_times_out (Completed 0 "" "")); reflexivity.
Defined.

(** C2 as stated fails: the output has no marker, the run succeeds, and the
    Run Result has a timing entry, [total_execution]. *)
Lemma marker_free_run_has_a_timing_entry :
  build_outcome original_dir (env s_quiet) = Exited (Completed 0 "" "")
  /\ run_outcome original_dir (env s_quiet)
     = Exited (Completed 0 ("starting" +:+ nl +:+ "done") "")
  /\ marker_free ("starting" +:+ nl +:+ "done")
  /\ value (run_version original_dir "original" s_quiet)
     = Ret (Some {[ "total_execution" := 60%Q ]})
  /\ timing_entries ({[ "total_execution" := 60%Q ]} : gmap string Q)
     = ["total_execution"]
  /\ timing_entries ({[ "total_execution" := 60%Q ]} : gmap string Q) <> [].
Proof.
  repeat split; try reflexivity.
  - now apply marker_freeb_true.
  - discriminate.
Qed.

Lemma marker_free_output_result_witness :
  exists t : gmap string Q,
    value (run_version original_dir "original" s_quiet) = Ret (Some t)
    /\ timing_entries t = ["total_execution"]
    /\ t !! "cache_loading" = None.
Proof.
  destruct (marker_free_output_result original_dir "original" s_quiet
              (Completed 0 "" "")
              (Completed 0 ("starting" +:+ nl +:+ "done") ""))
    as (t & Hv & Hs & Ht & _); try reflexivity.
  - apply marker_freeb_true. reflexivity.
  - exists t. split; [exact Hv|]. split; [exact Ht|].
    apply Hs. apply elem_of_cons. now left.
Defined.

(** C3 as stated fails: [--help] is given, a directory is missing, and the
    program prints the error lines and exits with status 1. *)
Lemma help_without_directories_exits_1 :
  "--help" ∈ ["compare_performance.py"; "--help"]
  /\ path_exists "原始版本" (env s_no_dirs) = false
  /\ main ["compare_performance.py"; "--help"] s_no_dirs
     = Out [ Print "Error: This script must be run from the accelerate_caching directory";
             Print "Current directory: /home/user" ]
           s_no_dirs (Raise (SystemExit 1))
  /\ value (main ["compare_performance.py"; "--help"] s_no_dirs)
     <> Raise (SystemExit 0).
Proof.
  repeat split; try reflexivity.
  - apply elem_of_cons. right. apply elem_of_cons. now left.
  - discriminate.
Qed.

Lemma help_needs_both_directories_witness :
  value (main ["compare_performance.py"; "--help"] s_ok)
  = Raise (SystemExit 0)
  /\ main ["compare_performance.py"; "--help"] s_no_dirs
     = Out [ Print "Error: This script must be run from the accelerate_caching directory";
             Print "Current directory: /home/user" ]
           s_no_dirs (Raise (SystemExit 1)).
Proof.
  split.
  - destruct (help_needs_both_directories
                ["compare_performance.py"; "--help"] s_ok) as [H _].
    apply H; try reflexivity.
    apply elem_of_cons. right. apply elem_of_cons. now left.
  - destruct (help_needs_both_directories
                ["compare_performance.py"; "--help"] s_no_dirs) as [_ H].
    apply H. left. reflexivity.
Defined.

(** The example of the specification: 12.5 against 2.5 seconds. *)
Example cache_loading_five_times_faster :
  report_row (Results {[ "cache_loading" := 25 # 2 ]}
                      {[ "cache_loading" := 5 # 2 ]})
             "Cache Loading" "cache_loading"
  = [Print "Cache Loading        12.500          2.500           5.00x faster"].
Proof. reflexivity. Qed.


Lemma malformed_timing_line_is_skipped_witness :
  scan_line ({[ "cache_saving" := 3%Q ]} : gmap string Q)
            "Cache loading time: abc seconds"
  = {[ "cache_saving" := 3%Q ]}
  /\ value (run_version optimized_dir "optimized"
                        (at_optimized true s_quiet))
     = Ret (Some {[ "cache_saving" := 3%Q; "total_execution" := 10%Q ]}).
Proof.
  destruct (@malformed_timing_line_is_skipped Q world _ _)
    as (_ & _ & Hrun & Habc). split.
  - apply Habc. reflexivity.
  - rewrite (Hrun optimized_dir "optimized" (at_optimized true s_quiet)
                  (Completed 0 "" "")
                  (Completed 0 ("Cache loading time: abc seconds" +:+ nl
                                +:+ "Cache saving time: 3 seconds") ""));
      reflexivity.
Defined.

Lemma build_failure_gives_no_result_witness :
  value (run_version original_dir "original" (at_original true s_build_fails))
  = Ret None
  /\ original (self_results (final (run_comparison true s_build_fails))) = ∅.
Proof.
  destruct (@build_failure_gives_no_result Q world _ _) as (Hrun & Horig & _).
  split.
  - apply (Hrun _ _ _ (Completed 101 "" "error[E0308]"));
      [reflexivity | cbn; lia].
  - apply (Horig true s_build_fails (Completed 101 "" "error[E0308]"));
      [reflexivity | reflexivity | cbn; lia].
Defined.

Lemma run_comparison_fixed_order_witness :
  steps (log (run_comparison true s_ok))
  = [ Call "run_comparison" ["True"];
      Call "clear_caches" [];
      Call "run_version" [original_dir; "original"];
      Call "clear_caches" [];
      Call "run_version" [optimized_dir; "optimized"];
      Call "compare_results" [];
      JsonDump "performance_comparison.json"
               (self_results (at_compare true s_ok)) ].
Proof.
  exact (proj1 (run_comparison_fixed_order true s_ok eq_refl)).
Defined.

Lemma no_clear_leaves_caches_witness :
  List.filter is_rmtree
    (log (main ["compare_performance.py"; "--no-clear"] s_cached)) = []
  /\ tree_size ".timstof_cache"
       (env (at_optimized false (State (env s_cached) init_results)))
     = 2097152%Z.
Proof.
  destruct (no_clear_leaves_caches
              ["compare_performance.py"; "--no-clear"] s_cached)
    as (_ & Hrm & _ & _ & _ & Hsize).
  - apply elem_of_cons. right. apply elem_of_cons. now left.
  - split; [exact Hrm|].
    destruct (Hsize ".timstof_cache") as [_ H]; [|exact H].
    intros args cwd tmo e. reflexivity.
Defined.

Lemma run_result_has_total_execution_witness :
  label_result original_dir "original" (at_original true s_ok)
    !! "total_execution" = Some 60%Q
  /\ Call "compare_results" [] ∈ log (run_comparison true s_ok).
Proof.
  destruct (@run_result_has_total_execution Q world _ _) as (Hte & _ & Hboth).
  split.
  - assert (value (run_version original_dir "original"
                               (at_original true s_ok))
            = Ret (Some (label_result original_dir "original"
                                      (at_original true s_ok)))) as Hv
      by reflexivity.
    destruct (Hte _ _ _ _ Hv) as [H _]. exact H.
  - assert (self_results s_ok = init_results) as Hinit by reflexivity.
    destruct (Hboth true s_ok Hinit) as [_ H]. apply H. reflexivity.
Defined.

(** ** The further properties on the concrete world *)

Import Scenarios.

Lemma compare_results_ratio_iff_both_positive_witness :
  (exists line : string,
      compare_metric "Cache Loading" "cache_loading" s_measured
      = Out [Print line] s_measured (Ret tt)
      /\ shows_row line "Cache Loading" "12.500" "2.500" "5.00x faster")
  /\ compare_metric "Cache Loading" "cache_loading" s_measured
     = Out [Print "Cache Loading        12.500          2.500           5.00x faster"]
           s_measured (Ret tt)
  /\ compare_metric "Cache Saving" "cache_saving" s_measured
     = Out [Print "Cache Saving         3.000           N/A             N/A       "]
           s_measured (Ret tt)
  /\ compare_metric "Raw Data Reading" "raw_reading" s_measured
     = Out [] s_measured (Ret tt).
Proof.
  destruct (compare_results_ratio_iff_both_positive s_measured)
    as (Hrow & _ & Heq & _).
  assert (forall k : string,
             bool_decide (k ∈ map snd metrics) = true -> k ∈ map snd metrics)
    as Hin by (intros k; apply bool_decide_eq_true_1).
  split; [|split; [|split]].
  - destruct (Hrow "Cache Loading" "cache_loading" (Hin "cache_loading" eq_refl))
      as (row & E & Hm).
    change (exists line : string,
               row = [Print line]
               /\ shows_row line "Cache Loading" "12.500" "2.500"
                            "5.00x faster") in Hm.
    destruct Hm as (line & -> & Hs). exists line.
    split; [exact E | exact Hs].
  - rewrite Heq. reflexivity.
  - rewrite Heq. reflexivity.
  - destruct (Hrow "Raw Data Reading" "raw_reading" (Hin "raw_reading" eq_refl))
      as (row & E & Hm).
    change (row = []) in Hm. subst row. exact E.
Defined.

Lemma demo_rmtree_removes : @rmtree_removes Q world _.
Proof.
  intros p e. cbn. apply bool_decide_eq_false. intros Hin.
  apply list_elem_of_In, List.filter_In in Hin as [_ Hneq].
  now rewrite String.eqb_refl in Hneq.
Qed.

Lemma demo_rmtree_creates_nothing : @rmtree_creates_nothing Q world _.
Proof.
  intros p q e Hq. cbn in *. apply bool_decide_eq_false.
  apply bool_decide_eq_false in Hq. intros Hin. apply Hq.
  now apply list_elem_of_In, List.filter_In in Hin as [Hin%list_elem_of_In _].
Qed.

Lemma clear_caches_clears_and_is_idempotent_witness :
  path_exists ".timstof_cache" (env (final (clear_caches s_cached))) = false
  /\ List.filter is_rmtree
       (log (clear_caches (final (clear_caches s_cached)))) = [].
Proof.
  destruct (clear_caches_clears_and_is_idempotent s_cached
              demo_rmtree_removes demo_rmtree_creates_nothing)
    as (Ha & _ & Hid).
  split; [exact Ha|]. cbv zeta in Hid. now rewrite Hid.
Defined.

Lemma driver_removes_only_caches_witness :
  ".timstof_cache" ∈ cache_paths.
Proof.
  apply (driver_removes_only_caches ["compare_performance.py"] s_cached).
  apply list_elem_of_lookup. exists 5%nat. reflexivity.
Defined.

Lemma scan_line_feeds_first_marker_only_witness :
  scan_line ({[ "cache_saving" := 1%Q ]} : gmap string Q)
    "Cache loading time after cache saving time: 00:07.5 s"
    !! "cache_saving" = Some 1%Q.
Proof.
  destruct (scan_line_feeds_first_marker_only
              ({[ "cache_saving" := 1%Q ]} : gmap string Q)
              "Cache loading time after cache saving time: 00:07.5 s"
              "cache_saving") as (_ & H & _).
  rewrite H; [reflexivity | reflexivity | discriminate].
Defined.

Lemma last_timing_line_wins_witness :
  fold_left scan_line
    ([str "Cache loading time after cache saving time: 00:07.5 s"]
     ++ str "cache loading time: 9 s" :: []) (∅ : gmap string Q)
    !! "cache_loading" = Some 9%Q.
Proof.
  apply (last_timing_line_wins ∅ _ [] "cache loading time: 9 s"
           "cache_loading" "9" 9%Q); try reflexivity.
  intros later Hin. now apply elem_of_nil in Hin.
Defined.

Lemma run_result_keys_are_metrics_witness :
  label_result original_dir "original" (at_original true s_two_markers)
    !! "cache_size_mb" = None.
Proof.
  assert (value (run_version original_dir "original"
                             (at_original true s_two_markers))
          = Ret (Some (label_result original_dir "original"
                                    (at_original true s_two_markers)))) as Hv
    by reflexivity.
  destruct (run_result_keys_are_metrics _ _ _ _ Hv) as (_ & H & _).
  rewrite H. reflexivity.
Defined.

Lemma time_str_token_shape_witness :
  time_str (str "Cache loading time: 00:12.5" ++ [0x2003%N] ++ str "s")
  = Some (str "12.5")
  /\ all_chars not_space (str "12.5") = true
  /\ all_chars not_colon (str "12.5") = true.
Proof.
  split; [reflexivity|].
  destruct (time_str_token_shape
              (str "Cache loading time: 00:12.5" ++ [0x2003%N] ++ str "s")
              "12.5")
    as (_ & Hns & Hnc); [reflexivity|].
  split; [exact Hns | exact Hnc].
Defined.

Lemma run_failure_gives_no_result_witness :
  value (run_version original_dir "original" (at_original true s_run_fails))
  = Ret None
  /\ succeeds original_dir "original" (at_original true s_run_fails) = false.
Proof.
  destruct (run_failure_gives_no_result original_dir "original"
              (at_original true s_run_fails)
              (Completed 0 "" "") (Completed 3 "" "panicked"))
    as (Hv & _ & _ & _ & Hs); try reflexivity.
  - cbn. lia.
  - split; [exact Hv | exact Hs].
Defined.

Lemma run_comparison_keeps_previous_entries_witness :
  original (self_results (final (run_comparison true s_stale)))
  = {[ "total_execution" := 7%Q ]}.
Proof.
  assert (value (run_comparison true s_stale) = Ret tt) as Hv by reflexivity.
  destruct (run_comparison_keeps_previous_entries true s_stale Hv)
    as (_ & _ & Ho & _).
  rewrite Ho; reflexivity.
Defined.

Lemma run_comparison_without_directories_witness :
  value (run_comparison false s_no_dirs) = Ret tt
  /\ List.filter is_subprocess (log (run_comparison false s_no_dirs)) = [].
Proof.
  rewrite (run_comparison_without_directories s_no_dirs);
    [split|..]; reflexivity.
Defined.

Lemma optimized_timeout_loses_original_result_witness :
  value (run_comparison true s_optimized_times_out) = Raise TimeoutExpired
  /\ original (self_results (final (run_comparison true s_optimized_times_out)))
     <> ∅.
Proof.
  destruct (optimized_timeout_loses_original_result true
              s_optimized_times_out (Completed 0 "" ""))
    as (Hv & _ & Ho & Hne); try reflexivity.
  split; [exact Hv|]. now rewrite Ho.
Defined.

Lemma timeout_escapes_from_a_timed_out_step_witness :
  value (run_comparison true s_optimized_times_out) = Raise TimeoutExpired
  /\ value (run_comparison true s_times_out) = Raise TimeoutExpired
  /\ forall p r, JsonDump p r ∉ log (run_comparison true s_times_out).
Proof.
  destruct (timeout_escapes_from_a_timed_out_step true s_optimized_times_out)
    as (_ & _ & Hopt).
  destruct (timeout_escapes_from_a_timed_out_step true s_times_out)
    as (Honly & Horig & _).
  split; [apply Hopt; reflexivity|].
  split; [apply Horig; reflexivity|].
  apply Honly, Horig. reflexivity.
Defined.

Lemma caches_absent_before_each_run_witness :
  path_exists ".timstof_cache" (env (at_original true s_cached)) = false
  /\ path_exists ".timstof_cache" (env (at_optimized true s_cached)) = false.
Proof.
  apply (caches_absent_before_each_run s_cached ".timstof_cache"
           demo_rmtree_removes demo_rmtree_creates_nothing).
  apply elem_of_cons. now left.
Defined.

Lemma main_ignores_other_arguments_witness :
  main ["compare_performance.py"; "--verbose"; "--no-clear"; "--no-clear"] s_ok
  = main ["--no-clear"] s_ok.
Proof.
  apply main_ignores_other_arguments.
  - split; intros H; exfalso; revert H;
      apply (bool_decide_eq_false_1 ("--help" ∈ _)); reflexivity.
  - split; intros _;
      apply (bool_decide_eq_true_1 ("--no-clear" ∈ _)); reflexivity.
Defined.

Lemma main_exit_status_witness :
  List.filter (fun e => negb (is_print e))
    (log (main ["compare_performance.py"] s_no_dirs)) = []
  /\ env (final (main ["compare_performance.py"] s_no_dirs)) = env s_no_dirs.
Proof.
  assert (value (main ["compare_performance.py"] s_no_dirs)
          = Raise (SystemExit 1)) as Hv by reflexivity.
  destruct (main_exit_status _ _ _ Hv) as (_ & Hp & He & _).
  split; [exact Hp | exact He].
Defined.

Lemma table_line_pads_never_truncates_witness :
  String.length (table_line "Cache Loading" "12.500" "2.500" "N/A") = 63%nat.
Proof.
  destruct (table_line_pads_never_truncates
              "Cache Loading" "12.500" "2.500" "N/A") as (_ & _ & H).
  apply H; cbn; lia.
Defined.
